(** * Utbytte/skatt: salary, dividend and combination tax scenarios

    A shallow embedding of the calculation engine and of the input
    validator of the Norwegian AS profit-extraction calculator.

    Numbers.  JavaScript numbers are IEEE binary64.  The calculation
    modules ([TaxRates], [Salary], [SalaryScenario], [Dividend],
    [Combination], [Optimizer], [CombinedDividend], [Breakpoints],
    [Comparison]) are embedded over exact rationals [Q]: every published
    amount goes through [Math.round], and the properties stated about them
    are either
    structural or hold up to a tolerance of a few currency units, far above
    binary64 rounding for amounts within the validator's limits.  The input
    validator ([Validation]) decides acceptance by comparing against exact
    bounds, so it is embedded over binary64 itself ([PrimFloat]).

    Two things that exact numbers do not have are kept apart.  The source
    divides by zero only in [calculateMaxGrossSalary] with pension on at
    the rate -1; the statements about amounts assume pension off or a rate
    that is not negative.  A salary ratio that is [NaN] or infinite is
    covered by [Combination.calculateCombinationScenarioOn], which is
    [calculateCombinationScenario] on every finite ratio.

    Presentation strings (the [calculationSteps] and [assumptions] arrays,
    scenario names) carry no number that is read back and are left out of
    the records. *)

From Stdlib Require Import ZArith QArith Qround Qminmax Lia Lqa List String Bool.
From Stdlib Require Import Floats.PrimFloat.
From Stdlib Require Floats.FloatAxioms.
From Stdlib Require Import Sorting.Permutation Sorting.Sorted.
Import ListNotations.

Local Open Scope Q_scope.

(** ** JavaScript's [Math.round], [Math.max], [Math.min] on exact numbers *)

(** [Math.round(x)] is the integer nearest to [x], ties going up:
    [floor(x + 0.5)]. *)
Definition Math_round (x : Q) : Z := Qfloor (x + (1 # 2)).

Definition Math_max (x y : Q) : Q := if Qle_bool x y then y else x.
Definition Math_min (x y : Q) : Q := if Qle_bool x y then x else y.

(** [a > b] and [a < b] on numbers, as booleans. *)
Definition Qgtb (a b : Q) : bool := negb (Qle_bool a b).
Definition Qltb (a b : Q) : bool := negb (Qle_bool b a).

(** A call either returns or throws [new Error(msg)]. *)
Inductive result (A : Type) : Type :=
| Ok (a : A)
| Throw (msg : string).
Arguments Ok {A} a.
Arguments Throw {A} msg.

Definition bind {A B} (r : result A) (k : A -> result B) : result B :=
  match r with
  | Ok a => k a
  | Throw m => Throw m
  end.

Definition throws {A} (r : result A) : Prop :=
  match r with Ok _ => False | Throw _ => True end.

Definition returns {A} (r : result A) : Prop :=
  match r with Ok _ => True | Throw _ => False end.

(** ** config/taxRates.js *)
Module TaxRates.

Definition CORPORATE_TAX_RATE : Q := 22 # 100.

(** [EMPLOYER_SOCIAL_SECURITY_RATES]: the object's own keys, in
    insertion order of the literal. *)
Definition EMPLOYER_SOCIAL_SECURITY_RATES : list (string * Q) :=
  [ ("1"%string, 141 # 1000);
    ("1a"%string, 141 # 1000);
    ("2"%string, 106 # 1000);
    ("3"%string, 64 # 1000);
    ("4"%string, 54 # 1000);
    ("4a"%string, 79 # 1000);
    ("5"%string, 0) ].

(** Property lookup [obj[key]] among the own keys; [None] is
    [undefined]. *)
Fixpoint lookup (key : string) (obj : list (string * Q)) : option Q :=
  match obj with
  | [] => None
  | (k, v) :: rest => if String.eqb key k then Some v else lookup key rest
  end.

Definition validZone (zone : string) : Prop :=
  lookup zone EMPLOYER_SOCIAL_SECURITY_RATES <> None.

Definition PERSONAL_TAX_RATE : Q := 22 # 100.

Record Bracket := { threshold : Q; rate : Q }.

Definition BRACKET_TAX_2025 : list Bracket :=
  [ {| threshold := 217400; rate := 17 # 1000 |};
    {| threshold := 306050; rate := 4 # 100 |};
    {| threshold := 697150; rate := 137 # 1000 |};
    {| threshold := 942400; rate := 167 # 1000 |};
    {| threshold := 1410750; rate := 176 # 1000 |} ].

Definition SOCIAL_SECURITY_RATES_salary : Q := 78 # 1000.
Definition SOCIAL_SECURITY_THRESHOLD : Q := 69650.

Definition DIVIDEND_GROSS_UP_FACTOR : Q := 172 # 100.
Definition SKJERMING_RATE_2025 : Q := 5 # 100.

Definition MINSTEFRADRAG_rate : Q := 46 # 100.
Definition MINSTEFRADRAG_minimum : Q := 4000.
Definition MINSTEFRADRAG_maximum : Q := 114950.

Definition PERSONFRADRAG : Q := 73150.

Definition OTP_MIN_RATE : Q := 2 # 100.

End TaxRates.

(** ** calculations/salaryCalculations.js *)
Module Salary.
Import TaxRates.

Record MaxGrossSalary := {
  grossSalary : Z;
  employerAGA : Z;
  pensionContribution : Z;
  pensionAGA : Z;
  totalEmployerCost : Z
}.

(** The division is the exact one.  [totalCostFactor] is
    [(1 + agaRate) * (1 + pensionFactor)] and is 0 only with pension on at
    the rate -1, where the source divides by zero and its amounts are
    [NaN] or infinite: the statements about amounts assume pension off or
    a rate that is not negative.  [totalEmployerCost] rounds the exact sum
    of the four parts, which is the budget; the binary64 sum can fall just
    below a budget that ends in .5 and then rounds one unit lower. *)
Definition calculateMaxGrossSalary (availableAmount : Q) (zone : string)
    (includePension : bool) (pensionRate : Q) : result MaxGrossSalary :=
  match lookup zone EMPLOYER_SOCIAL_SECURITY_RATES with
  | None => Throw "Invalid employer zone"
  | Some agaRate =>
      let pensionFactor := if includePension then pensionRate else 0 in
      let totalCostFactor := 1 + agaRate + pensionFactor * (1 + agaRate) in
      let grossSalary := availableAmount / totalCostFactor in
      let employerAGA := grossSalary * agaRate in
      let pensionContribution :=
        if includePension then grossSalary * pensionRate else 0 in
      let pensionAGA := pensionContribution * agaRate in
      Ok {| grossSalary := Math_round grossSalary;
            employerAGA := Math_round employerAGA;
            pensionContribution := Math_round pensionContribution;
            pensionAGA := Math_round pensionAGA;
            totalEmployerCost :=
              Math_round (grossSalary + employerAGA
                          + pensionContribution + pensionAGA) |}
  end.

(** The loop of [calculateBracketTax]: [brackets] is the part of the
    table from index [i] on, so [brackets[i + 1]] is the head of its
    tail and a missing successor is [Infinity].  Only the running total
    is kept; the [breakdown] entries are presentation. *)
Fixpoint bracketLoop (brackets : list Bracket) (grossSalary : Q)
    (totalBracketTax : Q) : Q :=
  match brackets with
  | [] => totalBracketTax
  | bracket :: later =>
      let upper :=
        match later with
        | next :: _ => Math_min grossSalary (threshold next)
        | [] => grossSalary
        end in
      if Qgtb grossSalary (threshold bracket)
      then bracketLoop later grossSalary
             (totalBracketTax + (upper - threshold bracket) * rate bracket)
      else bracketLoop later grossSalary totalBracketTax
  end.

(** [calculateBracketTax(grossSalary).totalBracketTax]. *)
Definition calculateBracketTax (grossSalary : Q) : Z :=
  Math_round (bracketLoop BRACKET_TAX_2025 grossSalary 0).

(** [calculateSocialSecurityContribution(grossSalary).contribution]. *)
Definition calculateSocialSecurityContribution (grossSalary : Q) : Z :=
  if Qle_bool grossSalary SOCIAL_SECURITY_THRESHOLD then 0%Z
  else Math_round (grossSalary * SOCIAL_SECURITY_RATES_salary).

(** [calculateMinstefradrag(grossSalary).minstefradrag]. *)
Definition calculateMinstefradrag (grossSalary : Q) : Z :=
  let m := grossSalary * MINSTEFRADRAG_rate in
  let m := Math_max m MINSTEFRADRAG_minimum in
  let m := Math_min m MINSTEFRADRAG_maximum in
  let m := Math_min m grossSalary in
  Math_round m.

(** [calculateIncomeTax(grossSalary).incomeTax]. *)
Definition calculateIncomeTax (grossSalary : Q) : Z :=
  let minstefradrag := calculateMinstefradrag grossSalary in
  let taxableIncome :=
    Math_max 0 (grossSalary - inject_Z minstefradrag - PERSONFRADRAG) in
  Math_round (taxableIncome * PERSONAL_TAX_RATE).

End Salary.

(** The [options] argument of the scenario functions: a property that is
    absent ([None]) takes the default of the destructuring pattern.  The
    search step is a whole number of percentage points. *)
Record Options := {
  includePension : option bool;
  pensionRate : option Q;
  retentionPercentage : option Q;
  shareCostBasis : option Q;
  searchStep : option Z
}.

Definition noOptions : Options :=
  {| includePension := None; pensionRate := None;
     retentionPercentage := None; shareCostBasis := None;
     searchStep := None |}.

Definition orDefault {A} (o : option A) (d : A) : A :=
  match o with Some a => a | None => d end.

(** The [results] block shared by every scenario. *)
Record Results := {
  netPrivatePayout : Z;
  totalTaxPaid : Z;
  effectiveTaxRate : Q;
  retainedInCompany : Z
}.


Module SalaryScenario.
Import TaxRates Salary.

Record Scenario := {
  (* company *)
  retainedEarnings : Z;
  availableForExtraction : Z;
  grossSalaryPaid : Z;
  companyEmployerAGA : Z;
  companyPensionContribution : Z;
  corporateTaxOnRetained : Z;
  (* personal *)
  trygdeavgift : Z;
  trinnskatt : Z;
  inntektsskatt : Z;
  totalPersonalTax : Z;
  netSalary : Z;
  (* final results *)
  results : Results
}.

Definition calculateSalaryScenario (profit : Q) (zone : string)
    (options : Options) : result Scenario :=
  let includePension := orDefault (includePension options) false in
  let pensionRate := orDefault (pensionRate options) OTP_MIN_RATE in
  let retentionPercentage := orDefault (retentionPercentage options) 0 in
  let retainedAmount := profit * retentionPercentage in
  let availableForExtraction := profit - retainedAmount in
  bind (calculateMaxGrossSalary availableForExtraction zone
          includePension pensionRate) (fun salaryCalc =>
  let grossSalary := grossSalary salaryCalc in
  let employerAGA := employerAGA salaryCalc in
  let pensionContribution := pensionContribution salaryCalc in
  let trygdeavgift :=
    calculateSocialSecurityContribution (inject_Z grossSalary) in
  let trinnskatt := calculateBracketTax (inject_Z grossSalary) in
  let inntektsskatt := calculateIncomeTax (inject_Z grossSalary) in
  let corporateTaxOnRetained := retainedAmount * CORPORATE_TAX_RATE in
  let totalPersonalTax := (trygdeavgift + trinnskatt + inntektsskatt)%Z in
  let totalTax :=
    inject_Z employerAGA + inject_Z totalPersonalTax
    + corporateTaxOnRetained in
  let netSalary := (grossSalary - totalPersonalTax)%Z in
  let effectiveTaxRate :=
    if Qgtb profit 0 then totalTax / profit else 0 in
  Ok {| retainedEarnings := Math_round retainedAmount;
        availableForExtraction := Math_round availableForExtraction;
        grossSalaryPaid := grossSalary;
        companyEmployerAGA := employerAGA;
        companyPensionContribution :=
          Math_round (inject_Z pensionContribution);
        corporateTaxOnRetained := Math_round corporateTaxOnRetained;
        trygdeavgift := trygdeavgift;
        trinnskatt := trinnskatt;
        inntektsskatt := inntektsskatt;
        totalPersonalTax := totalPersonalTax;
        netSalary := netSalary;
        results :=
          {| netPrivatePayout := netSalary;
             totalTaxPaid := Math_round totalTax;
             effectiveTaxRate := effectiveTaxRate;
             retainedInCompany :=
               Math_round (retainedAmount - corporateTaxOnRetained) |} |}).

End SalaryScenario.

(** ** calculations/dividendCalculations.js *)
Module Dividend.
Import TaxRates.

(** [calculateCorporateTax(profit).corporateTax]. *)
Definition calculateCorporateTax (profit : Q) : Z :=
  Math_round (profit * CORPORATE_TAX_RATE).

(** [calculateSkjermingsfradrag(costBasis).skjermingsfradrag], at the
    default [skjermingRate]; [!costBasis] holds of the number 0. *)
Definition calculateSkjermingsfradrag (costBasis : Q) : Z :=
  if Qeq_bool costBasis 0 || Qle_bool costBasis 0 then 0%Z
  else Math_round (costBasis * SKJERMING_RATE_2025).

Record DividendTax := {
  taxableDividend : Z;
  grossedUpDividend : Z;
  dividendTax : Z;
  netDividend : Z;
  effectiveRate : Q
}.

(** [effectiveRate] is the exact quotient; the binary64 quotient of the
    source can differ from it in the last place. *)
Definition calculateDividendTax (dividendAmount skjermingsfradrag : Q)
    : DividendTax :=
  let taxableDividend := Math_max 0 (dividendAmount - skjermingsfradrag) in
  let grossedUpDividend := taxableDividend * DIVIDEND_GROSS_UP_FACTOR in
  let dividendTax := grossedUpDividend * PERSONAL_TAX_RATE in
  let effectiveRate :=
    if Qgtb dividendAmount 0 then dividendTax / dividendAmount else 0 in
  let netDividend := dividendAmount - dividendTax in
  {| taxableDividend := Math_round taxableDividend;
     grossedUpDividend := Math_round grossedUpDividend;
     dividendTax := Math_round dividendTax;
     netDividend := Math_round netDividend;
     effectiveRate := effectiveRate |}.

Record Scenario := {
  (* company *)
  corporateTax : Z;
  retainedBeforeTax : Z;
  retainedAfterTax : Z;
  dividendDistributed : Z;
  (* personal *)
  skjermingsfradragUsed : Z;
  personalDividendTax : Z;
  (* final results *)
  results : Results
}.

Definition calculateDividendScenario (profit : Q) (options : Options)
    : Scenario :=
  let retentionPercentage := orDefault (retentionPercentage options) 0 in
  let shareCostBasis := orDefault (shareCostBasis options) 0 in
  let retainedBeforeTax := profit * retentionPercentage in
  let availableForDividend := profit - retainedBeforeTax in
  let totalCorporateTax := calculateCorporateTax profit in
  let corporateTaxOnRetained := retainedBeforeTax * CORPORATE_TAX_RATE in
  let retainedAfterTax := retainedBeforeTax - corporateTaxOnRetained in
  let corporateTaxOnDistributed :=
    availableForDividend * CORPORATE_TAX_RATE in
  let dividendAvailable :=
    availableForDividend - corporateTaxOnDistributed in
  let skjermingsfradrag :=
    Math_min (inject_Z (calculateSkjermingsfradrag shareCostBasis))
             dividendAvailable in
  let dividendTaxResult :=
    calculateDividendTax dividendAvailable skjermingsfradrag in
  let totalTax := (totalCorporateTax + dividendTax dividendTaxResult)%Z in
  let netPrivatePayout := netDividend dividendTaxResult in
  let effectiveTaxRate :=
    if Qgtb profit 0 then inject_Z totalTax / profit else 0 in
  {| corporateTax := Math_round (inject_Z totalCorporateTax);
     retainedBeforeTax := Math_round retainedBeforeTax;
     retainedAfterTax := Math_round retainedAfterTax;
     dividendDistributed := Math_round dividendAvailable;
     skjermingsfradragUsed := Math_round skjermingsfradrag;
     personalDividendTax :=
       Math_round (inject_Z (dividendTax dividendTaxResult));
     results :=
       {| netPrivatePayout := Math_round (inject_Z netPrivatePayout);
          totalTaxPaid := Math_round (inject_Z totalTax);
          effectiveTaxRate := effectiveTaxRate;
          retainedInCompany := Math_round retainedAfterTax |} |}.

End Dividend.

(** ** calculations/combinationCalculations.js *)
Module Combination.
Import TaxRates.

(** The bracket loop of [calculateCombinationScenario]: it runs over the
    whole table and finds the successor of [bracket] by position,
    [BRACKET_TAX_2025[indexOf(bracket) + 1]?.threshold || Infinity];
    [i] is [indexOf(bracket)] and [None] stands for [Infinity]. *)
Fixpoint trinnskattLoop (table todo : list Bracket) (i : nat)
    (grossSalary : Q) (trinnskatt : Q) : Q :=
  match todo with
  | [] => trinnskatt
  | bracket :: later =>
      if Qgtb grossSalary (threshold bracket)
      then
        let nextThreshold :=
          match nth_error table (S i) with
          | Some next =>
              if Qeq_bool (threshold next) 0 then None
              else Some (threshold next)
          | None => None
          end in
        let upper :=
          match nextThreshold with
          | Some t => Math_min grossSalary t
          | None => grossSalary
          end in
        trinnskattLoop table later (S i) grossSalary
          (trinnskatt + (upper - threshold bracket) * rate bracket)
      else trinnskattLoop table later (S i) grossSalary trinnskatt
  end.

(** The amounts of the returned object.  Its [input] block, which echoes
    the arguments ([shareCostBasis] among them), is left out. *)
Record Scenario := {
  (* company *)
  retainedAmount : Z;
  retainedAfterTax : Z;
  salaryPortion : Z;
  dividendPortion : Z;
  grossSalaryPaid : Z;
  employerAGA : Z;
  pensionContribution : Z;
  corporateTax : Z;
  dividendDistributed : Z;
  (* personal *)
  trygdeavgift : Z;
  trinnskatt : Z;
  inntektsskatt : Z;
  totalSalaryTax : Z;
  netSalary : Z;
  dividendTax : Z;
  netDividend : Z;
  (* final results *)
  results : Results
}.

Definition calculateCombinationScenario (profit : Q) (zone : string)
    (salaryRatio : Q) (options : Options) : result Scenario :=
  let includePension := orDefault (includePension options) false in
  let pensionRate := orDefault (pensionRate options) (2 # 100) in
  let retentionPercentage := orDefault (retentionPercentage options) 0 in
  if Qltb salaryRatio 0 || Qgtb salaryRatio 100
  then Throw "Salary ratio must be between 0 and 100"
  else
  let retainedAmount := profit * retentionPercentage in
  let availableForExtraction := profit - retainedAmount in
  let salaryPortion := availableForExtraction * (salaryRatio / 100) in
  let dividendPortion := availableForExtraction - salaryPortion in
  bind (Salary.calculateMaxGrossSalary salaryPortion zone
          includePension pensionRate) (fun salaryCalc =>
  let grossSalary := inject_Z (Salary.grossSalary salaryCalc) in
  let employerAGA := inject_Z (Salary.employerAGA salaryCalc) in
  let pensionContribution := Salary.pensionContribution salaryCalc in
  let trygdeavgift := grossSalary * SOCIAL_SECURITY_RATES_salary in
  let trinnskatt :=
    trinnskattLoop BRACKET_TAX_2025 BRACKET_TAX_2025 0 grossSalary 0 in
  let minstefradrag :=
    Math_min
      (Math_min
         (Math_max (grossSalary * MINSTEFRADRAG_rate) MINSTEFRADRAG_minimum)
         MINSTEFRADRAG_maximum)
      grossSalary in
  let taxableIncome :=
    Math_max 0 (grossSalary - minstefradrag - PERSONFRADRAG) in
  let inntektsskatt := taxableIncome * PERSONAL_TAX_RATE in
  let totalSalaryTax := trygdeavgift + trinnskatt + inntektsskatt in
  let netSalary := grossSalary - totalSalaryTax in
  let corporateTaxOnDividend := dividendPortion * CORPORATE_TAX_RATE in
  let dividendAvailable := dividendPortion - corporateTaxOnDividend in
  let corporateTaxOnRetained := retainedAmount * CORPORATE_TAX_RATE in
  let totalCorporateTax :=
    corporateTaxOnDividend + corporateTaxOnRetained in
  let dividendTaxResult :=
    Dividend.calculateDividendTax dividendAvailable 0 in
  let dividendTax := inject_Z (Dividend.dividendTax dividendTaxResult) in
  let netDividend := inject_Z (Dividend.netDividend dividendTaxResult) in
  let totalTax :=
    employerAGA + totalSalaryTax + totalCorporateTax + dividendTax in
  let netPrivatePayout := netSalary + netDividend in
  let effectiveTaxRate :=
    if Qgtb profit 0 then totalTax / profit else 0 in
  let retainedAfterTax := retainedAmount - corporateTaxOnRetained in
  Ok {| retainedAmount := Math_round retainedAmount;
        retainedAfterTax := Math_round retainedAfterTax;
        salaryPortion := Math_round salaryPortion;
        dividendPortion := Math_round dividendPortion;
        grossSalaryPaid := Salary.grossSalary salaryCalc;
        employerAGA := Math_round employerAGA;
        pensionContribution := Math_round (inject_Z pensionContribution);
        corporateTax := Math_round totalCorporateTax;
        dividendDistributed := Math_round dividendAvailable;
        trygdeavgift := Math_round trygdeavgift;
        trinnskatt := Math_round trinnskatt;
        inntektsskatt := Math_round inntektsskatt;
        totalSalaryTax := Math_round totalSalaryTax;
        netSalary := Math_round netSalary;
        dividendTax := Math_round dividendTax;
        netDividend := Math_round netDividend;
        results :=
          {| netPrivatePayout := Math_round netPrivatePayout;
             totalTaxPaid := Math_round totalTax;
             effectiveTaxRate := effectiveTaxRate;
             retainedInCompany := Math_round retainedAfterTax |} |}).

(** [salaryRatio] as a caller can pass it: any number, the infinities
    and [NaN] included. *)
Inductive Ratio : Type :=
| Finite (ratio : Q)
| PlusInfinity
| MinusInfinity
| NotANumber.

(** [salaryRatio < bound] and [salaryRatio > bound]; both are false of
    [NaN]. *)
Definition ratioBelow (salaryRatio : Ratio) (bound : Q) : bool :=
  match salaryRatio with
  | Finite ratio => Qltb ratio bound
  | MinusInfinity => true
  | PlusInfinity | NotANumber => false
  end.

Definition ratioAbove (salaryRatio : Ratio) (bound : Q) : bool :=
  match salaryRatio with
  | Finite ratio => Qgtb ratio bound
  | PlusInfinity => true
  | MinusInfinity | NotANumber => false
  end.

(** What a call returns: the amounts, or, for a ratio that passed the
    guard without being a finite number, an object whose salary and
    dividend amounts are [NaN]. *)
Inductive Returned : Type :=
| Amounts (scenario : Scenario)
| NaNAmounts.

(** [calculateCombinationScenario] on any number.  The guard is the
    source's [salaryRatio < 0 || salaryRatio > 100]; a finite ratio goes
    on as above; [NaN] passes the guard, [salaryPortion] is [NaN], and
    [calculateMaxGrossSalary] still looks the zone up before it
    computes. *)
Definition calculateCombinationScenarioOn (profit : Q) (zone : string)
    (salaryRatio : Ratio) (options : Options) : result Returned :=
  if ratioBelow salaryRatio 0 || ratioAbove salaryRatio 100
  then Throw "Salary ratio must be between 0 and 100"
  else
    match salaryRatio with
    | Finite ratio =>
        bind (calculateCombinationScenario profit zone ratio options)
          (fun scenario => Ok (Amounts scenario))
    | NotANumber | PlusInfinity | MinusInfinity =>
        (* only [NaN] gets here *)
        match lookup zone EMPLOYER_SOCIAL_SECURITY_RATES with
        | None => Throw "Invalid employer zone"
        | Some _ => Ok NaNAmounts
        end
    end.

End Combination.

(** *** [findOptimalRatio] *)
Module Optimizer.
Import Combination.

Record SearchEntry := {
  entryRatio : Z;
  entryNetPayout : Z;
  entryTotalTax : Z;
  entryEffectiveRate : Q
}.

(** The mutable locals of the search; [optimalTax = None] is the initial
    [Infinity]. *)
Record SearchState := {
  optimalRatio : Z;
  optimalNetPayout : Z;
  optimalTax : option Z;
  searchResults : list SearchEntry
}.

Definition initialState : SearchState :=
  {| optimalRatio := 0; optimalNetPayout := 0; optimalTax := None;
     searchResults := [] |}.

Section Search.
Variables (profit : Q) (zone : string) (explicit : Options)
          (step : Z).

(** One pass through the body of the [for] loop, [try]/[catch]
    included: a ratio whose scenario throws leaves the state as it
    is. *)
Definition visit (ratio : Z) (st : SearchState) : SearchState :=
  match calculateCombinationScenario profit zone (inject_Z ratio)
          explicit with
  | Throw _ => st
  | Ok scenario =>
      let r := results scenario in
      let pushed :=
        searchResults st ++
          [ {| entryRatio := ratio;
               entryNetPayout := netPrivatePayout r;
               entryTotalTax := totalTaxPaid r;
               entryEffectiveRate := effectiveTaxRate r |} ] in
      if (netPrivatePayout r >? optimalNetPayout st)%Z
      then {| optimalRatio := ratio;
              optimalNetPayout := netPrivatePayout r;
              optimalTax := Some (totalTaxPaid r);
              searchResults := pushed |}
      else {| optimalRatio := optimalRatio st;
              optimalNetPayout := optimalNetPayout st;
              optimalTax := optimalTax st;
              searchResults := pushed |}
  end.

(** [for (ratio = ...; ratio <= 100; ratio += searchStep)]; running
    out of [fuel] stands for a loop that has not finished. *)
Fixpoint searchLoop (fuel : nat) (ratio : Z) (st : SearchState)
    : option SearchState :=
  if (ratio <=? 100)%Z then
    match fuel with
    | O => None
    | S fuel' => searchLoop fuel' (ratio + step)%Z (visit ratio st)
    end
  else Some st.
End Search.

(** An entry of [comparison] for a named baseline. *)
Record Baseline := {
  baseRatio : Z;
  baseNetPayout : Z;
  baseTotalTax : Z;
  baseEffectiveRate : Q
}.

(** [comparison.optimal]; [optTotalTax = None] is [Infinity].  Its
    [effectiveRate], [optimalTax / profit], is not a rational when
    [optimalTax] is [Infinity] or [profit] is 0 and is left out. *)
Record OptimalEntry := {
  optRatio : Z;
  optNetPayout : Z;
  optTotalTax : option Z
}.

Record Optimum := {
  resultRatio : Z;
  optimalScenario : Scenario;
  trace : list SearchEntry;
  comparisonOptimal : OptimalEntry;
  allSalary : Baseline;
  allDividend : Baseline;
  split5050 : Baseline;
  vsAllSalary : Z;
  vsAllDividend : Z;
  vsSplit5050 : Z
}.

Definition baseline (ratio : Z) (s : Scenario) : Baseline :=
  {| baseRatio := ratio;
     baseNetPayout := netPrivatePayout (results s);
     baseTotalTax := totalTaxPaid (results s);
     baseEffectiveRate := effectiveTaxRate (results s) |}.

(** The options object rebuilt by [findOptimalRatio] for the search and
    for the optimal scenario: the four destructured values, defaults
    applied. *)
Definition explicitOptions (options : Options) : Options :=
  {| includePension := Some (orDefault (includePension options) false);
     pensionRate := Some (orDefault (pensionRate options) (2 # 100));
     retentionPercentage :=
       Some (orDefault (retentionPercentage options) 0);
     shareCostBasis := Some (orDefault (shareCostBasis options) 0);
     searchStep := None |}.

(** [None]: the search loop did not finish within [fuel] iterations.
    The [analysis] texts of the result are left out. *)
Definition findOptimalRatio (fuel : nat) (profit : Q) (zone : string)
    (options : Options) : option (result Optimum) :=
  let step := orDefault (searchStep options) 1%Z in
  let explicit := explicitOptions options in
  match searchLoop profit zone explicit step fuel 0 initialState with
  | None => None
  | Some st =>
      Some (
      bind (calculateCombinationScenario profit zone
              (inject_Z (optimalRatio st)) explicit)
        (fun optimalScenario =>
      bind (calculateCombinationScenario profit zone 100 options)
        (fun scenario100Salary =>
      bind (calculateCombinationScenario profit zone 0 options)
        (fun scenario100Dividend =>
      bind (calculateCombinationScenario profit zone 50 options)
        (fun scenario5050 =>
      Ok {| resultRatio := optimalRatio st;
            optimalScenario := optimalScenario;
            trace := searchResults st;
            comparisonOptimal :=
              {| optRatio := optimalRatio st;
                 optNetPayout := optimalNetPayout st;
                 optTotalTax := optimalTax st |};
            allSalary := baseline 100 scenario100Salary;
            allDividend := baseline 0 scenario100Dividend;
            split5050 := baseline 50 scenario5050;
            vsAllSalary :=
              (optimalNetPayout st
               - netPrivatePayout (results scenario100Salary))%Z;
            vsAllDividend :=
              (optimalNetPayout st
               - netPrivatePayout (results scenario100Dividend))%Z;
            vsSplit5050 :=
              (optimalNetPayout st
               - netPrivatePayout (results scenario5050))%Z |})))))
  end.

End Optimizer.


(** ** validation/inputValidation.js *)
Module Validation.

Local Set Warnings "-inexact-float,-register-all".
Local Open Scope string_scope.

(** Untrusted input: the values a parsed JSON body (or a missing
    property) can hold.  Numbers are binary64. *)
Inductive JsVal : Type :=
| JUndefined
| JNull
| JBool (b : bool)
| JNumber (x : float)
| JString (s : string)
| JArray (items : list JsVal)
| JObject (props : list (string * JsVal)).

(** What the validator leaves to the engine: parsing a string as a
    number ([Number(s)]), [String(v)] of a value that is not a string,
    and [toLocaleString('nb-NO')]. *)
Record Host := {
  StringToNumber : string -> float;
  ToStringOf : JsVal -> string;
  toLocaleString : float -> string
}.

(** [v === undefined || v === null || v === ''] *)
Definition isMissing (v : JsVal) : bool :=
  match v with
  | JUndefined | JNull => true
  | JString s => String.eqb s ""
  | _ => false
  end.

(** [!v] *)
Definition isFalsy (v : JsVal) : bool :=
  match v with
  | JUndefined | JNull => true
  | JBool b => negb b
  | JNumber x => PrimFloat.eqb x 0%float || is_nan x
  | JString s => String.eqb s ""
  | JArray _ | JObject _ => false
  end.

(** [typeof v === 'object'] *)
Definition typeofObject (v : JsVal) : bool :=
  match v with
  | JNull | JArray _ | JObject _ => true
  | _ => false
  end.

Fixpoint getOwn (key : string) (props : list (string * JsVal)) : JsVal :=
  match props with
  | [] => JUndefined
  | (k, v) :: rest => if String.eqb key k then v else getOwn key rest
  end.

(** [v.key] for the property names the validator reads; only called on
    truthy values.  None of these names is defined on a primitive
    wrapper or on [Array.prototype]. *)
Definition getProp (v : JsVal) (key : string) : JsVal :=
  match v with
  | JObject props => getOwn key props
  | _ => JUndefined
  end.

(** [v === true], [v === false] *)
Definition isTrue (v : JsVal) : bool :=
  match v with JBool true => true | _ => false end.
Definition isFalse (v : JsVal) : bool :=
  match v with JBool false => true | _ => false end.

Record Validated (A : Type) := {
  isValid : bool;
  errors : list string;
  value : option A;
  warning : option string
}.
Arguments isValid {A} _.
Arguments errors {A} _.
Arguments value {A} _.
Arguments warning {A} _.

Definition invalid {A} (msg : string) : Validated A :=
  {| isValid := false; errors := [msg]; value := None; warning := None |}.
Definition valid {A} (a : A) : Validated A :=
  {| isValid := true; errors := []; value := Some a; warning := None |}.

Definition MIN_PROFIT : float := 0.
Definition MAX_PROFIT : float := 100000000000.
Definition MIN_PERCENTAGE : float := 0.
Definition MAX_PERCENTAGE : float := 100.

(** [Object.keys(EMPLOYER_SOCIAL_SECURITY_RATES)]: integer-like keys in
    ascending order first, then the others in insertion order. *)
Definition validZones : list string :=
  ["1"; "2"; "3"; "4"; "5"; "1a"; "4a"].

Fixpoint join (sep : string) (l : list string) : string :=
  match l with
  | [] => ""
  | [s] => s
  | s :: rest => s ++ sep ++ join sep rest
  end.

Fixpoint includes (l : list string) (s : string) : bool :=
  match l with
  | [] => false
  | x :: rest => String.eqb x s || includes rest s
  end.

Record Strategy := {
  strategyType : string;
  salaryRatio : float;
  dividendRatio : float
}.
Record Pension := { pensionEnabled : bool; pensionRateValue : JsVal }.
Record Retention := { retentionEnabled : bool; retentionFraction : float }.

Section Validators.
Variable host : Host.

(** [Number(v)] *)
Definition ToNumber (v : JsVal) : float :=
  match v with
  | JUndefined => nan
  | JNull => 0%float
  | JBool b => if b then 1%float else 0%float
  | JNumber x => x
  | JString s => StringToNumber host s
  | JArray _ | JObject _ => StringToNumber host (ToStringOf host v)
  end.

(** [String(v)] *)
Definition ToString (v : JsVal) : string :=
  match v with
  | JString s => s
  | _ => ToStringOf host v
  end.

Definition validateProfit (profit : JsVal) : Validated float :=
  if isMissing profit then
    invalid "Overskudd før skatt er påkrevd (Annual profit before tax is required)"
  else
    let numericProfit := ToNumber profit in
    if is_nan numericProfit then
      invalid "Overskudd må være et tall (Profit must be a number)"
    else if PrimFloat.ltb numericProfit MIN_PROFIT then
      invalid "Overskudd kan ikke være negativt (Profit cannot be negative)"
    else if PrimFloat.ltb MAX_PROFIT numericProfit then
      invalid ("Overskudd overstiger maksimalt tillatt beløp på "
               ++ toLocaleString host MAX_PROFIT ++ " kr")
    else valid numericProfit.

Definition validateEmployerZone (zone : JsVal) : Validated string :=
  if isMissing zone then
    invalid "Arbeidsgiveravgiftssone er påkrevd (Employer social security zone is required)"
  else
    let zoneStr := ToString zone in
    if negb (includes validZones zoneStr) then
      invalid ("Ugyldig sone. Gyldige verdier er: "
               ++ join ", " validZones
               ++ " (Invalid zone. Valid values are: "
               ++ join ", " validZones ++ ")")
    else valid zoneStr.

Definition validatePercentage (percentage : JsVal) (fieldName : string)
    : Validated float :=
  if isMissing percentage then
    invalid (fieldName ++ " er påkrevd (" ++ fieldName ++ " is required)")
  else
    let numericPercentage := ToNumber percentage in
    if is_nan numericPercentage then
      invalid (fieldName ++ " må være et tall (" ++ fieldName
               ++ " must be a number)")
    else if PrimFloat.ltb numericPercentage MIN_PERCENTAGE
            || PrimFloat.ltb MAX_PERCENTAGE numericPercentage then
      invalid (fieldName ++ " må være mellom 0 og 100 (" ++ fieldName
               ++ " must be between 0 and 100)")
    else valid numericPercentage.

(** A [value] read in arithmetic: [null] counts as 0. *)
Definition valueOrNull (v : option float) : float :=
  match v with Some x => x | None => 0%float end.

(** [return salaryRatioResult]: a failed percentage result handed on
    as the caller's own result. *)
Definition handOn {A B} (r : Validated A) : Validated B :=
  {| isValid := isValid r; errors := errors r; value := None;
     warning := warning r |}.

Definition validateWithdrawalStrategy (strategy : JsVal)
    : Validated Strategy :=
  if isFalsy strategy || negb (typeofObject strategy) then
    invalid "Uttaksstrategi er påkrevd (Withdrawal strategy is required)"
  else
    let validTypes := ["salary"; "dividend"; "combination"] in
    match getProp strategy "type" with
    | JString type =>
        if negb (includes validTypes type) then
          invalid ("Ugyldig strategitype. Gyldige verdier er: "
                   ++ join ", " validTypes)
        else if String.eqb type "combination" then
          let salaryRatioResult :=
            validatePercentage (getProp strategy "salaryRatio")
              "Lønnsandel" in
          if negb (isValid salaryRatioResult) then
            handOn salaryRatioResult
          else
            let ratio := valueOrNull (value salaryRatioResult) in
            valid {| strategyType := "combination";
                     salaryRatio := ratio;
                     dividendRatio := (100 - ratio)%float |}
        else
          valid {| strategyType := type;
                   salaryRatio :=
                     if String.eqb type "salary" then 100%float
                     else 0%float;
                   dividendRatio :=
                     if String.eqb type "dividend" then 100%float
                     else 0%float |}
    | _ =>
        invalid ("Ugyldig strategitype. Gyldige verdier er: "
                 ++ join ", " validTypes)
    end.

Definition validatePensionSettings (pensionSettings : JsVal)
    : Validated Pension :=
  if isFalsy pensionSettings
     || isFalse (getProp pensionSettings "enabled") then
    valid {| pensionEnabled := false; pensionRateValue := JNumber 0 |}
  else if isTrue (getProp pensionSettings "enabled") then
    let rate := getProp pensionSettings "rate" in
    let isDecimal :=
      PrimFloat.ltb 0 (ToNumber rate) && PrimFloat.ltb (ToNumber rate) 1 in
    let rateAsPercentage :=
      if isDecimal then JNumber (ToNumber rate * 100)%float else rate in
    if is_nan (ToNumber rateAsPercentage) then
      invalid "Pensjonssats må være et tall (Pension rate must be a number)"
    else if PrimFloat.ltb (ToNumber rateAsPercentage) 2 then
      invalid "Pensjonssats må være minst 2% (OTP minimum) (Pension rate must be at least 2%)"
    else if PrimFloat.ltb 7 (ToNumber rateAsPercentage) then
      invalid "Pensjonssats over 7% er ikke fradragsberettiget (Pension rate above 7% is not tax-deductible)"
    else
      let rateAsDecimal :=
        if isDecimal then rate
        else JNumber (ToNumber rate / 100)%float in
      valid {| pensionEnabled := true; pensionRateValue := rateAsDecimal |}
  else invalid "Ugyldig pensjonsinnstilling (Invalid pension setting)".

Definition validateRetentionSettings (retentionSettings : JsVal)
    : Validated Retention :=
  if isFalsy retentionSettings
     || isFalse (getProp retentionSettings "enabled") then
    valid {| retentionEnabled := false; retentionFraction := 0 |}
  else if isTrue (getProp retentionSettings "enabled") then
    let percentageResult :=
      validatePercentage (getProp retentionSettings "percentage")
        "Tilbakeholdelsesprosent" in
    if negb (isValid percentageResult) then handOn percentageResult
    else
      valid {| retentionEnabled := true;
               retentionFraction :=
                 (valueOrNull (value percentageResult) / 100)%float |}
  else
    invalid "Ugyldig tilbakeholdelsesinnstilling (Invalid retention setting)".

(** A valid result whose [value] is [null] when no cost basis was
    given. *)
Definition validateShareCostBasis (costBasis : JsVal)
    : Validated (option float) :=
  if isMissing costBasis then
    {| isValid := true; errors := []; value := Some None;
       warning :=
         Some "Inngangsverdi ikke oppgitt - skjermingsfradrag beregnes ikke" |}
  else
    let numericCostBasis := ToNumber costBasis in
    if is_nan numericCostBasis then
      invalid "Inngangsverdi må være et tall (Cost basis must be a number)"
    else if PrimFloat.ltb numericCostBasis 0 then
      invalid "Inngangsverdi kan ikke være negativ (Cost basis cannot be negative)"
    else valid (Some numericCostBasis).








End Validators.

End Validation.


(** ** Notions used in the statements *)

(** The unrounded bracket tax of the 2025 table. *)
Definition bracketTaxExact (grossSalary : Q) : Q :=
  Salary.bracketLoop TaxRates.BRACKET_TAX_2025 grossSalary 0.

(** The marginal-slice sum written out bracket by bracket. *)
Definition bracketTaxPiecewise (g : Q) : Q :=
  if Qle_bool g 217400 then 0
  else if Qle_bool g 306050 then (g - 217400) * (17 # 1000)
  else if Qle_bool g 697150 then
    (30141 # 20) + (g - 306050) * (4 # 100)
  else if Qle_bool g 942400 then
    (343021 # 20) + (g - 697150) * (137 # 1000)
  else if Qle_bool g 1410750 then
    (507503 # 10) + (g - 942400) * (167 # 1000)
  else (2579295 # 20) + (g - 1410750) * (176 # 1000).

(** [a] equals [b] within [tol] currency units. *)
Definition within (tol a b : Q) : Prop := b - tol <= a /\ a <= b + tol.


(** The budget left for extraction after retention. *)
Definition extractable (profit : Q) (options : Options) : Q :=
  profit - profit * orDefault (retentionPercentage options) 0.


(** Options without pension that retain 30% of the profit and declare a
    share cost basis of 100 000. *)
Definition retainSome : Options :=
  {| includePension := None; pensionRate := None;
     retentionPercentage := Some (3 # 10);
     shareCostBasis := Some 100000;
     searchStep := None |}.

(** Options that switch pension on at the default rate of 2%. *)
Definition pensionOn : Options :=
  {| includePension := Some true; pensionRate := None;
     retentionPercentage := None; shareCostBasis := None;
     searchStep := None |}.

(** The net private payout of the combination scenario that the search
    evaluates at an integer ratio; [None] when the scenario throws. *)
Definition payoutAt (profit : Q) (zone : string) (options : Options)
    (ratio : Z) : option Z :=
  match Combination.calculateCombinationScenario profit zone
          (inject_Z ratio) (Optimizer.explicitOptions options) with
  | Ok s => Some (netPrivatePayout (Combination.results s))
  | Throw _ => None
  end.

(** [ratio] is the lowest integer ratio of the grid 0..100 whose payout
    attains the maximum over the whole grid. *)
Definition IsFirstMaximum (profit : Q) (zone : string) (options : Options)
    (ratio : Z) : Prop :=
  (0 <= ratio <= 100)%Z
  /\ exists best,
       payoutAt profit zone options ratio = Some best
       /\ (forall r, (0 <= r <= 100)%Z ->
                     exists v, payoutAt profit zone options r = Some v
                               /\ (v <= best)%Z)
       /\ (forall r, (0 <= r < ratio)%Z ->
                     exists v, payoutAt profit zone options r = Some v
                               /\ (v < best)%Z).

(** The ratios visited with the default step: 0, 1, ..., 100. *)
Definition evaluatedRatios : list Z := map Z.of_nat (seq 0 101).


(** The search uses the default step. *)
Definition defaultStep (options : Options) : Prop :=
  orDefault (searchStep options) 1%Z = 1%Z.

(** Options that switch pension on at the maximum rate of 7%. *)
Definition pensionMax : Options :=
  {| includePension := Some true; pensionRate := Some (7 # 100);
     retentionPercentage := None; shareCostBasis := None;
     searchStep := None |}.

(** What the search knows after the ratios [0 .. k-1]: either nothing
    positive was seen and the locals still hold their initial values, or
    the locals describe the first ratio attaining the greatest payout
    seen. *)
Definition SearchInvariant (profit : Q) (zone : string) (explicit : Options)
    (k : Z) (st : Optimizer.SearchState) : Prop :=
  let payoutOf := fun r s =>
    Combination.calculateCombinationScenario profit zone (inject_Z r)
      explicit = Ok s in
  (forall r s, (0 <= r < k)%Z -> payoutOf r s ->
     (netPrivatePayout (Combination.results s)
      <= Optimizer.optimalNetPayout st)%Z)
  /\ ((Optimizer.optimalTax st = None
       /\ Optimizer.optimalRatio st = 0%Z
       /\ Optimizer.optimalNetPayout st = 0%Z)
      \/ ((0 <= Optimizer.optimalRatio st < k)%Z
          /\ (0 < Optimizer.optimalNetPayout st)%Z
          /\ (exists s,
                payoutOf (Optimizer.optimalRatio st) s
                /\ netPrivatePayout (Combination.results s)
                   = Optimizer.optimalNetPayout st
                /\ Optimizer.optimalTax st
                   = Some (totalTaxPaid (Combination.results s)))
          /\ (forall r s, (0 <= r < Optimizer.optimalRatio st)%Z ->
                payoutOf r s ->
                (netPrivatePayout (Combination.results s)
                 < Optimizer.optimalNetPayout st)%Z))).

(** The [optimalRatio] of a call that returned. *)
Definition returnedRatio (r : option (result Optimizer.Optimum))
    : option Z :=
  match r with
  | Some (Ok res) => Some (Optimizer.resultRatio res)
  | _ => None
  end.

(** The net payout of the optimal scenario and of the three baselines
    (ratio 100, 0, 50) of a call that returned. *)
Definition returnedPayouts (r : option (result Optimizer.Optimum))
    : option (Z * (Z * Z * Z)) :=
  match r with
  | Some (Ok res) =>
      Some (netPrivatePayout
              (Combination.results (Optimizer.optimalScenario res)),
            (Optimizer.baseNetPayout (Optimizer.allSalary res),
             Optimizer.baseNetPayout (Optimizer.allDividend res),
             Optimizer.baseNetPayout (Optimizer.split5050 res)))
  | _ => None
  end.



(** ** Further notions used in the statements *)



(** [options] with [shareCostBasis] set. *)
Definition setShareCostBasis (costBasis : Q) (options : Options) : Options :=
  {| includePension := includePension options;
     pensionRate := pensionRate options;
     retentionPercentage := retentionPercentage options;
     shareCostBasis := Some costBasis;
     searchStep := searchStep options |}.

(** *** [calculateCombinedDividendTax] (dividendCalculations.js) *)
Module CombinedDividend.
Import TaxRates.




End CombinedDividend.

(** [entry] is what the search pushes onto [searchResults] for the ratio
    it carries: the payout, tax and effective rate of the combination
    scenario at that ratio. *)
Definition IsEntryOf (profit : Q) (zone : string) (options : Options)
    (entry : Optimizer.SearchEntry) : Prop :=
  exists s,
    Combination.calculateCombinationScenario profit zone
      (inject_Z (Optimizer.entryRatio entry)) options = Ok s
    /\ Optimizer.entryNetPayout entry
       = netPrivatePayout (Combination.results s)
    /\ Optimizer.entryTotalTax entry = totalTaxPaid (Combination.results s)
    /\ Optimizer.entryEffectiveRate entry
       = effectiveTaxRate (Combination.results s).

(** What [searchResults] holds after the ratios [0 .. k-1]: one entry per
    ratio, in increasing order. *)
Definition TraceInvariant (profit : Q) (zone : string) (options : Options)
    (k : Z) (st : Optimizer.SearchState) : Prop :=
  map Optimizer.entryRatio (Optimizer.searchResults st)
  = map Z.of_nat (seq 0 (Z.to_nat k))
  /\ Forall (IsEntryOf profit zone options) (Optimizer.searchResults st).



(** ** calculations/scenarioComparison.js *)
Module Comparison.

(** A property [scenarios[key]]: missing, [{ error: message }] left by a
    [catch], or a scenario with its [scenarioName] and [results]. *)
Inductive Slot : Type :=
| Absent
| Failed (message : string)
| Computed (scenarioName : option string) (results : Results).

Record Scenarios := {
  allSalary : Slot;
  allDividend : Slot;
  split5050 : Slot;
  optimized : Slot;
  withRetention : Slot
}.

(** [rows.sort((a, b) => b.netPayout - a.netPayout)]: the sort is stable
    and the comparator a total preorder on integer payouts, so the result
    is the one descending arrangement that keeps equal payouts in their
    order; insertion from the right computes it. *)
Section Sort.
Variable A : Type.
Variable netPayout : A -> Z.

Fixpoint insertDesc (x : A) (sorted : list A) : list A :=
  match sorted with
  | [] => [x]
  | y :: rest =>
      if (netPayout y >? netPayout x)%Z then y :: insertDesc x rest
      else x :: y :: rest
  end.

Definition sortDesc (l : list A) : list A := fold_right insertDesc [] l.
End Sort.
Arguments insertDesc {A} netPayout x sorted.
Arguments sortDesc {A} netPayout l.

(** A row as pushed by the first loop. *)
Record Cells := {
  name : string;
  grossPayout : Z;
  totalTax : Z;
  netPayout : Z;
  effectiveRate : Q;
  retained : Z
}.

(** A row after the second loop has added its three properties. *)
Record Row := {
  cells : Cells;
  rank : Z;
  differenceFromBest : Z;
  percentDifferenceFromBest : Q
}.

(** [scenario.scenarioName || name] *)
Definition nameOr (scenarioName : option string) (name : string) : string :=
  match scenarioName with
  | Some s => if String.eqb s "" then name else s
  | None => name
  end.

(** One pass of [for (const { key, name } of scenarioList)]. *)
Definition pushRow (name : string) (scenario : Slot) (rows : list Cells)
    : list Cells :=
  match scenario with
  | Computed scenarioName results =>
      rows ++
      [ {| name := nameOr scenarioName name;
           grossPayout :=
             (netPrivatePayout results + totalTaxPaid results)%Z;
           totalTax := totalTaxPaid results;
           netPayout := netPrivatePayout results;
           effectiveRate := effectiveTaxRate results;
           retained := retainedInCompany results |} ]
  | Absent | Failed _ => rows
  end.

Definition collectRows (scenarios : Scenarios) : list Cells :=
  let rows := pushRow "100% Lønn" (allSalary scenarios) [] in
  let rows := pushRow "100% Utbytte" (allDividend scenarios) rows in
  let rows := pushRow "50/50 Fordeling" (split5050 scenarios) rows in
  let rows := pushRow "Optimalisert" (optimized scenarios) rows in
  pushRow "Med tilbakeholdelse (30%)" (withRetention scenarios) rows.

(** [rows.forEach((row, index) => ...)] from [index] on. *)
Fixpoint annotate (best : Cells) (index : nat) (rows : list Cells)
    : list Row :=
  match rows with
  | [] => []
  | row :: rest =>
      let difference := (netPayout best - netPayout row)%Z in
      {| cells := row;
         rank := (Z.of_nat index + 1)%Z;
         differenceFromBest := difference;
         percentDifferenceFromBest :=
           if (netPayout best >? 0)%Z
           then inject_Z difference / inject_Z (netPayout best) * 100
           else 0 |}
      :: annotate best (S index) rest
  end.

(** [rows[rows.length - 1]] *)
Definition lastRow (rows : list Row) : option Row :=
  nth_error rows (List.length rows - 1).

Record Table := {
  rows : list Row;
  bestScenario : option string;
  worstScenario : option string;
  maxDifference : option Z
}.

(** The [headers] of the table are constants and left out. *)
Definition generateComparisonTable (scenarios : Scenarios) : Table :=
  let sorted := sortDesc netPayout (collectRows scenarios) in
  let rows :=
    match sorted with
    | [] => []
    | best :: _ => annotate best 0 sorted
    end in
  {| rows := rows;
     bestScenario := option_map name (hd_error sorted);
     worstScenario := option_map (fun row => name (cells row)) (lastRow rows);
     maxDifference := option_map differenceFromBest (lastRow rows) |}.








End Comparison.

(** *** [calculateBreakpoints] (combinationCalculations.js) *)
Module Breakpoints.
Import TaxRates.




End Breakpoints.


(** What the search knows, for any positive step, before it visits the
    ratio [k]: the best payout so far is not negative and bounds the
    payout of every multiple of the step below [k], and the best ratio is
    such a multiple. *)
Definition StepInvariant (profit : Q) (zone : string) (explicit : Options)
    (step k : Z) (st : Optimizer.SearchState) : Prop :=
  (forall j s,
     (0 <= j)%Z -> (j * step < k)%Z ->
     Combination.calculateCombinationScenario profit zone
       (inject_Z (j * step)) explicit = Ok s ->
     (netPrivatePayout (Combination.results s)
      <= Optimizer.optimalNetPayout st)%Z)
  /\ (0 <= Optimizer.optimalNetPayout st)%Z
  /\ (0 <= Optimizer.optimalRatio st <= 100)%Z
  /\ exists j, (0 <= j)%Z /\ Optimizer.optimalRatio st = (j * step)%Z.

(** Options that search in steps of 25. *)
Definition coarseSearch : Options :=
  {| includePension := None; pensionRate := None;
     retentionPercentage := None; shareCostBasis := None;
     searchStep := Some 25%Z |}.

(** * Properties *)

(** ** Rounding and comparison *)

Lemma Math_round_upper (x : Q) : inject_Z (Math_round x) <= x + (1 # 2).
Proof. unfold Math_round. apply Qfloor_le. Qed.

Lemma Math_round_lower (x : Q) : x - (1 # 2) < inject_Z (Math_round x).
Proof.
  unfold Math_round.
  pose proof (Qlt_floor (x + (1 # 2))) as H.
  rewrite inject_Z_plus in H. change (inject_Z 1) with 1 in H. lra.
Qed.

Lemma Math_round_wd (x y : Q) : x == y -> Math_round x = Math_round y.
Proof. intros H. unfold Math_round. now rewrite H. Qed.

#[global] Instance Math_round_Proper : Proper (Qeq ==> eq) Math_round.
Proof. intros x y H. now apply Math_round_wd. Qed.

Lemma Math_round_mono (x y : Q) :
  x <= y -> (Math_round x <= Math_round y)%Z.
Proof. intros H. unfold Math_round. apply Qfloor_resp_le. lra. Qed.

(** An integer between [x - 1/2] (excluded) and [x + 1/2] is the rounding
    of [x]. *)
Lemma Math_round_unique (x : Q) (z : Z) :
  x - (1 # 2) < inject_Z z -> inject_Z z <= x + (1 # 2) -> Math_round x = z.
Proof.
  intros Hlo Hhi.
  pose proof (Math_round_upper x) as Hu.
  pose proof (Math_round_lower x) as Hl.
  assert (inject_Z z < inject_Z (Math_round x) + 1) as H1 by lra.
  assert (inject_Z (Math_round x) < inject_Z z + 1) as H2 by lra.
  change 1 with (inject_Z 1) in H1, H2.
  rewrite <- inject_Z_plus in H1, H2.
  rewrite <- Zlt_Qlt in H1, H2. lia.
Qed.

Lemma Math_round_inject_Z (z : Z) : Math_round (inject_Z z) = z.
Proof. apply Math_round_unique; lra. Qed.

Lemma Qgtb_true (a b : Q) : Qgtb a b = true <-> b < a.
Proof.
  unfold Qgtb. rewrite negb_true_iff.
  destruct (Qle_bool a b) eqn:E.
  - apply Qle_bool_iff in E. split; [discriminate | lra].
  - split; [intros _ | reflexivity].
    apply Qnot_le_lt. intros H. apply Qle_bool_iff in H. congruence.
Qed.

Lemma Qgtb_false (a b : Q) : Qgtb a b = false <-> a <= b.
Proof.
  pose proof (Qgtb_true a b) as H.
  destruct (Qgtb a b); split; intros; try reflexivity; try discriminate.
  - assert (b < a) by now apply H. lra.
  - apply Qnot_lt_le. intros C. apply H in C. discriminate.
Qed.

Lemma Qltb_true (a b : Q) : Qltb a b = true <-> a < b.
Proof. apply (Qgtb_true b a). Qed.

Lemma Qltb_false (a b : Q) : Qltb a b = false <-> b <= a.
Proof. apply (Qgtb_false b a). Qed.

Lemma Math_max_spec (x y : Q) :
  (x <= y /\ Math_max x y = y) \/ (y < x /\ Math_max x y = x).
Proof.
  unfold Math_max. destruct (Qle_bool x y) eqn:E.
  - left. apply Qle_bool_iff in E. auto.
  - right. split; [|reflexivity].
    apply Qnot_le_lt. intros H. apply Qle_bool_iff in H. congruence.
Qed.

Lemma Math_min_spec (x y : Q) :
  (x <= y /\ Math_min x y = x) \/ (y < x /\ Math_min x y = y).
Proof.
  unfold Math_min. destruct (Qle_bool x y) eqn:E.
  - left. apply Qle_bool_iff in E. auto.
  - right. split; [|reflexivity].
    apply Qnot_le_lt. intros H. apply Qle_bool_iff in H. congruence.
Qed.

(** ** The zone table *)

Lemma lookup_zone_cases (zone : string) (aga : Q) :
  TaxRates.lookup zone TaxRates.EMPLOYER_SOCIAL_SECURITY_RATES = Some aga ->
  aga = 141 # 1000 \/ aga = 106 # 1000 \/ aga = 64 # 1000
  \/ aga = 54 # 1000 \/ aga = 79 # 1000 \/ aga = 0.
Proof.
  unfold TaxRates.EMPLOYER_SOCIAL_SECURITY_RATES. simpl.
  repeat match goal with
         | |- context [String.eqb ?a ?b] => destruct (String.eqb a b)
         end;
    intros H; inversion H; subst; tauto.
Qed.

Lemma lookup_zone_bounds (zone : string) (aga : Q) :
  TaxRates.lookup zone TaxRates.EMPLOYER_SOCIAL_SECURITY_RATES = Some aga ->
  0 <= aga /\ aga <= 141 # 1000.
Proof.
  intros H. apply lookup_zone_cases in H.
  repeat destruct H as [H | H]; subst; split; unfold Qle; simpl; lia.
Qed.

Lemma validZone_lookup (zone : string) :
  TaxRates.validZone zone ->
  exists aga,
    TaxRates.lookup zone TaxRates.EMPLOYER_SOCIAL_SECURITY_RATES = Some aga.
Proof.
  unfold TaxRates.validZone.
  destruct (TaxRates.lookup zone TaxRates.EMPLOYER_SOCIAL_SECURITY_RATES)
    as [aga|]; [eauto | congruence].
Qed.

Lemma calculateMaxGrossSalary_returns (budget : Q) (zone : string)
    (includePension : bool) (pensionRate : Q) :
  TaxRates.validZone zone ->
  exists sc,
    Salary.calculateMaxGrossSalary budget zone includePension pensionRate
    = Ok sc.
Proof.
  intros Hz. destruct (validZone_lookup zone Hz) as [aga Ha].
  unfold Salary.calculateMaxGrossSalary. rewrite Ha. eauto.
Qed.

(** ** Gross salary in a zone without employer contribution *)

(** C9, as amended: in zone '5' (employer-contribution rate 0) and without
    pension, [calculateMaxGrossSalary] returns as [grossSalary] the budget
    rounded to the nearest whole amount; for a whole budget that is the
    budget itself. *)
Theorem zone5_grossSalary_is_rounded_budget :
  (forall budget pensionRate : Q,
     exists sc,
       Salary.calculateMaxGrossSalary budget "5" false pensionRate = Ok sc
       /\ Salary.grossSalary sc = Math_round budget)
  /\ (forall (n : Z) (pensionRate : Q),
        exists sc,
          Salary.calculateMaxGrossSalary (inject_Z n) "5" false pensionRate
          = Ok sc
          /\ Salary.grossSalary sc = n).
Proof.
  assert (forall budget pensionRate : Q,
     exists sc,
       Salary.calculateMaxGrossSalary budget "5" false pensionRate = Ok sc
       /\ Salary.grossSalary sc = Math_round budget) as H.
  { intros budget pensionRate. eexists. split; [reflexivity|].
    simpl. apply Math_round_wd. field. }
  split; [exact H|].
  intros n pensionRate. destruct (H (inject_Z n) pensionRate) as [sc [E G]].
  exists sc. split; [exact E|]. rewrite G. apply Math_round_inject_Z.
Qed.

(** C9 as stated fails: a budget of half a krone yields a gross salary of
    one krone. *)
Lemma zone5_grossSalary_not_budget :
  0 <= 1 # 2 /\
  exists sc,
    Salary.calculateMaxGrossSalary (1 # 2) "5" false TaxRates.OTP_MIN_RATE
    = Ok sc
    /\ ~ inject_Z (Salary.grossSalary sc) == 1 # 2.
Proof.
  split; [unfold Qle; simpl; lia|].
  eexists. split; [reflexivity|].
  vm_compute. discriminate.
Qed.

(** ** When [calculateCombinationScenario] throws *)

Lemma ratio_guard_true (salaryRatio : Q) :
  Qltb salaryRatio 0 || Qgtb salaryRatio 100 = true
  <-> salaryRatio < 0 \/ 100 < salaryRatio.
Proof.
  rewrite orb_true_iff, Qltb_true, Qgtb_true. tauto.
Qed.

Lemma ratio_guard_false (salaryRatio : Q) :
  Qltb salaryRatio 0 || Qgtb salaryRatio 100 = false
  <-> 0 <= salaryRatio /\ salaryRatio <= 100.
Proof.
  rewrite orb_false_iff, Qltb_false, Qgtb_false. tauto.
Qed.

(** A ratio outside [0,100] throws, whatever the other arguments. *)
Lemma combination_rejects_ratio (profit : Q) (zone : string)
    (salaryRatio : Q) (options : Options) :
  salaryRatio < 0 \/ 100 < salaryRatio ->
  throws (Combination.calculateCombinationScenario profit zone salaryRatio
            options).
Proof.
  intros H. apply ratio_guard_true in H.
  unfold Combination.calculateCombinationScenario. rewrite H. exact I.
Qed.

(** An unknown zone throws as well, also for a ratio inside [0,100]. *)
Lemma combination_rejects_zone (profit : Q) (zone : string)
    (salaryRatio : Q) (options : Options) :
  ~ TaxRates.validZone zone ->
  throws (Combination.calculateCombinationScenario profit zone salaryRatio
            options).
Proof.
  intros Hz. unfold Combination.calculateCombinationScenario.
  destruct (Qltb salaryRatio 0 || Qgtb salaryRatio 100); [exact I|].
  unfold Salary.calculateMaxGrossSalary.
  destruct (TaxRates.lookup zone TaxRates.EMPLOYER_SOCIAL_SECURITY_RATES)
    eqn:E; [|exact I].
  exfalso. apply Hz. unfold TaxRates.validZone. congruence.
Qed.

Lemma combination_returns (profit : Q) (zone : string)
    (salaryRatio : Q) (options : Options) :
  TaxRates.validZone zone ->
  0 <= salaryRatio -> salaryRatio <= 100 ->
  exists s,
    Combination.calculateCombinationScenario profit zone salaryRatio options
    = Ok s.
Proof.
  intros Hz H0 H100.
  assert (Qltb salaryRatio 0 || Qgtb salaryRatio 100 = false) as G
    by (apply ratio_guard_false; auto).
  unfold Combination.calculateCombinationScenario. rewrite G.
  destruct (calculateMaxGrossSalary_returns
              ((profit - profit * orDefault (retentionPercentage options) 0)
               * (salaryRatio / 100))
              zone (orDefault (includePension options) false)
              (orDefault (pensionRate options) (2 # 100)) Hz) as [sc E].
  rewrite E. simpl. eauto.
Qed.

Lemma validZone_dec (zone : string) :
  {TaxRates.validZone zone} + {~ TaxRates.validZone zone}.
Proof.
  unfold TaxRates.validZone.
  destruct (TaxRates.lookup zone TaxRates.EMPLOYER_SOCIAL_SECURITY_RATES).
  - left. discriminate.
  - right. intros H. now apply H.
Qed.

Lemma throws_not_returns {A} (r : result A) : throws r <-> ~ returns r.
Proof. destruct r; simpl; tauto. Qed.

(** On a finite ratio the call on any number is the call above. *)
Lemma combinationOn_finite (profit : Q) (zone : string) (ratio : Q)
    (options : Options) :
  Combination.calculateCombinationScenarioOn profit zone
    (Combination.Finite ratio) options
  = bind (Combination.calculateCombinationScenario profit zone ratio options)
      (fun scenario => Ok (Combination.Amounts scenario)).
Proof.
  unfold Combination.calculateCombinationScenarioOn.
  cbn [Combination.ratioBelow Combination.ratioAbove].
  destruct (Qltb ratio 0 || Qgtb ratio 100) eqn:E; [|reflexivity].
  unfold Combination.calculateCombinationScenario. now rewrite E.
Qed.

(** C7, as amended: [calculateCombinationScenario] throws exactly when
    [salaryRatio < 0], [salaryRatio > 100] or the zone is not in the rate
    table; for every ratio inside [0,100] with a valid zone it returns
    the scenario.  Returning does not show that the ratio lies inside
    [0,100]: [NaN] passes both comparisons, and with a valid zone the
    call returns. *)
Theorem combination_throws_iff (profit : Q) (zone : string)
    (salaryRatio : Combination.Ratio) (options : Options) :
  (throws (Combination.calculateCombinationScenarioOn profit zone
             salaryRatio options)
   <-> Combination.ratioBelow salaryRatio 0 = true
       \/ Combination.ratioAbove salaryRatio 100 = true
       \/ ~ TaxRates.validZone zone)
  /\ (forall ratio : Q,
        salaryRatio = Combination.Finite ratio ->
        (Combination.ratioBelow salaryRatio 0 = true <-> ratio < 0)
        /\ (Combination.ratioAbove salaryRatio 100 = true <-> 100 < ratio)
        /\ (0 <= ratio -> ratio <= 100 -> TaxRates.validZone zone ->
            exists scenario,
              Combination.calculateCombinationScenario profit zone ratio
                options = Ok scenario
              /\ Combination.calculateCombinationScenarioOn profit zone
                   salaryRatio options
                 = Ok (Combination.Amounts scenario)))
  /\ (salaryRatio = Combination.NotANumber ->
      TaxRates.validZone zone ->
      Combination.calculateCombinationScenarioOn profit zone salaryRatio
        options = Ok Combination.NaNAmounts).
Proof.
  split; [|split].
  - destruct salaryRatio as [ratio| | |].
    + rewrite combinationOn_finite.
      cbn [Combination.ratioBelow Combination.ratioAbove].
      rewrite Qltb_true, Qgtb_true.
      destruct (Combination.calculateCombinationScenario profit zone ratio
                  options) as [s|msg] eqn:E; cbn [bind throws].
      * split; [tauto|]. intros H.
        assert (throws (Combination.calculateCombinationScenario profit zone
                          ratio options)) as Ht.
        { destruct H as [H|[H|H]].
          - apply combination_rejects_ratio. now left.
          - apply combination_rejects_ratio. now right.
          - now apply combination_rejects_zone. }
        rewrite E in Ht. exact Ht.
      * split; [intros _ | tauto].
        destruct (validZone_dec zone) as [Hz|Hz]; [|tauto].
        destruct (Qlt_le_dec ratio 0) as [Hlo|Hlo]; [tauto|].
        destruct (Qlt_le_dec 100 ratio) as [Hhi|Hhi]; [tauto|].
        exfalso.
        destruct (combination_returns profit zone ratio options Hz Hlo Hhi)
          as [s Es].
        rewrite Es in E. discriminate E.
    + cbn. tauto.
    + cbn. tauto.
    + unfold Combination.calculateCombinationScenarioOn.
      cbn [Combination.ratioBelow Combination.ratioAbove orb].
      unfold TaxRates.validZone.
      destruct (TaxRates.lookup zone TaxRates.EMPLOYER_SOCIAL_SECURITY_RATES);
        cbn [throws].
      * split; [tauto|].
        intros [H|[H|H]]; [discriminate H | discriminate H|].
        apply H. discriminate.
      * split; [|tauto].
        intros _. right. right. intros H. now apply H.
  - intros ratio ->.
    cbn [Combination.ratioBelow Combination.ratioAbove].
    split; [apply Qltb_true|]. split; [apply Qgtb_true|].
    intros H0 H100 Hz.
    destruct (combination_returns profit zone ratio options Hz H0 H100)
      as [s Es].
    exists s. split; [exact Es|].
    rewrite combinationOn_finite, Es. reflexivity.
  - intros -> Hz. destruct (validZone_lookup zone Hz) as [aga Ha].
    unfold Combination.calculateCombinationScenarioOn.
    cbn [Combination.ratioBelow Combination.ratioAbove orb].
    now rewrite Ha.
Qed.

(** C7 as stated fails: with the unknown zone '6' a ratio of 50, inside
    [0,100], throws. *)
Lemma combination_throws_inside_range :
  (0 <= 50 /\ 50 <= 100)
  /\ throws (Combination.calculateCombinationScenario 1000000 "6" 50
               noOptions).
Proof.
  split; [split; unfold Qle; simpl; lia | exact I].
Qed.


(** ** Bracket tax *)

Lemma Qgtb_intro_true (a b : Q) : b < a -> Qgtb a b = true.
Proof. apply Qgtb_true. Qed.

Lemma Qgtb_intro_false (a b : Q) : a <= b -> Qgtb a b = false.
Proof. apply Qgtb_false. Qed.

Lemma Math_min_left (a b : Q) : a <= b -> Math_min a b = a.
Proof.
  intros H. unfold Math_min.
  apply Qle_bool_iff in H. now rewrite H.
Qed.

Lemma Math_min_right (a b : Q) : b < a -> Math_min a b = b.
Proof.
  intros H. destruct (Math_min_spec a b) as [[H1 _]|[_ E]]; [lra | exact E].
Qed.

Lemma Math_max_left (a b : Q) : b < a -> Math_max a b = a.
Proof.
  intros H. destruct (Math_max_spec a b) as [[H1 _]|[_ E]]; [lra | exact E].
Qed.

Lemma Math_max_right (a b : Q) : a <= b -> Math_max a b = b.
Proof.
  intros H. unfold Math_max.
  apply Qle_bool_iff in H. now rewrite H.
Qed.

(** Settles every comparison of the goal that the hypotheses decide. *)
Ltac settle_comparisons :=
  repeat match goal with
    | |- context [Qgtb ?a ?b] =>
        first [ rewrite (Qgtb_intro_true a b) by lra
              | rewrite (Qgtb_intro_false a b) by lra ]
    | |- context [Math_min ?a ?b] =>
        first [ rewrite (Math_min_left a b) by lra
              | rewrite (Math_min_right a b) by lra ]
    | |- context [Math_max ?a ?b] =>
        first [ rewrite (Math_max_left a b) by lra
              | rewrite (Math_max_right a b) by lra ]
    end.

Lemma Qle_bool_false (a b : Q) : Qle_bool a b = false -> b < a.
Proof.
  intros E. apply Qnot_le_lt. intros H. apply Qle_bool_iff in H. congruence.
Qed.

Ltac split_regions g :=
  repeat match goal with
    | |- context [Qle_bool g ?t] =>
        let E := fresh "E" in
        destruct (Qle_bool g t) eqn:E;
        [ apply Qle_bool_iff in E | apply Qle_bool_false in E ]
    end.

Lemma bracketTaxExact_piecewise (g : Q) :
  bracketTaxExact g == bracketTaxPiecewise g.
Proof.
  unfold bracketTaxExact, bracketTaxPiecewise, TaxRates.BRACKET_TAX_2025.
  cbn [Salary.bracketLoop TaxRates.threshold TaxRates.rate].
  split_regions g; settle_comparisons; lra.
Qed.




Lemma calculateBracketTax_exact (g : Q) :
  Salary.calculateBracketTax g = Math_round (bracketTaxExact g).
Proof. reflexivity. Qed.






(** ** Reconciliation of the scenario totals *)

Lemma inject_Z_minus (a b : Z) : inject_Z (a - b) = inject_Z a - inject_Z b.
Proof.
  unfold Z.sub, Qminus. now rewrite inject_Z_plus, inject_Z_opp.
Qed.





(** Turns [inject_Z] of sums and differences into sums and differences. *)
Ltac push_inject_Z :=
  repeat first [ rewrite inject_Z_plus | rewrite inject_Z_minus ].







(** ** The search for the optimal ratio *)

Section SearchLoop.
Variables (profit : Q) (zone : string) (explicit : Options).

Lemma invariant_initial :
  SearchInvariant profit zone explicit 0 Optimizer.initialState.
Proof.
  unfold SearchInvariant. split.
  - intros r s Hr. lia.
  - left. auto.
Qed.

Lemma invariant_visit (k : Z) (st : Optimizer.SearchState) :
  (0 <= k)%Z ->
  SearchInvariant profit zone explicit k st ->
  SearchInvariant profit zone explicit (k + 1)
    (Optimizer.visit profit zone explicit k st).
Proof.
  intros Hk [Hmax Hbest]. unfold Optimizer.visit.
  destruct (Combination.calculateCombinationScenario profit zone
              (inject_Z k) explicit) as [sk|msg] eqn:Ek.
  - destruct (netPrivatePayout (Combination.results sk)
              >? Optimizer.optimalNetPayout st)%Z eqn:Hgt.
    + (* a strictly greater payout: [k] becomes the optimum *)
      apply Z.gtb_lt in Hgt.
      assert (0 <= Optimizer.optimalNetPayout st)%Z as Hnn
        by (destruct Hbest as [(_ & _ & ->)|(_ & H & _)]; lia).
      split; cbn [Optimizer.optimalNetPayout Optimizer.optimalRatio
                  Optimizer.optimalTax].
      * intros r s Hr Hs.
        destruct (Z.eq_dec r k) as [->|Hne].
        -- rewrite Ek in Hs. inversion Hs; subst. lia.
        -- assert (0 <= r < k)%Z as Hr' by lia.
           specialize (Hmax r s Hr' Hs). lia.
      * right. split; [lia|]. split; [lia|]. split.
        -- exists sk. auto.
        -- intros r s Hr Hs. specialize (Hmax r s Hr Hs). lia.
    + (* not greater: the optimum stays *)
      rewrite Z.gtb_ltb in Hgt. apply Z.ltb_ge in Hgt.
      split; cbn [Optimizer.optimalNetPayout Optimizer.optimalRatio
                  Optimizer.optimalTax].
      * intros r s Hr Hs.
        destruct (Z.eq_dec r k) as [->|Hne].
        -- rewrite Ek in Hs. inversion Hs; subst. lia.
        -- apply Hmax with (r := r); [lia | exact Hs].
      * destruct Hbest as [H|(Hr & Hpos & Hs & Hfirst)]; [now left|].
        right. split; [lia|]. auto.
  - (* the scenario throws: the ratio is skipped *)
    split.
    + intros r s Hr Hs.
      destruct (Z.eq_dec r k) as [->|Hne].
      * rewrite Ek in Hs. discriminate.
      * apply Hmax with (r := r); [lia | exact Hs].
    + destruct Hbest as [H|(Hr & Hpos & Hs & Hfirst)]; [now left|].
      right. split; [lia|]. auto.
Qed.

(** With step 1 the loop started at [k] finishes within [101 - k]
    iterations and establishes the invariant for the whole grid. *)
Lemma searchLoop_finishes (fuel : nat) :
  forall (k : Z) (st : Optimizer.SearchState),
    (0 <= k <= 101)%Z ->
    (101 - k <= Z.of_nat fuel)%Z ->
    SearchInvariant profit zone explicit k st ->
    exists st',
      Optimizer.searchLoop profit zone explicit 1 fuel k st = Some st'
      /\ SearchInvariant profit zone explicit 101 st'.
Proof.
  induction fuel as [|fuel IH]; intros k st Hk Hfuel Hinv.
  - assert (k = 101)%Z as -> by lia.
    exists st. split; [reflexivity | exact Hinv].
  - cbn [Optimizer.searchLoop].
    destruct (k <=? 100)%Z eqn:Hle.
    + apply Z.leb_le in Hle.
      apply IH; [lia | lia |].
      apply invariant_visit; [lia | exact Hinv].
    + apply Z.leb_gt in Hle.
      assert (k = 101)%Z as -> by lia.
      exists st. split; [reflexivity | exact Hinv].
Qed.

End SearchLoop.

(** The options object rebuilt by [findOptimalRatio] yields the same
    scenario as the caller's own options. *)
Lemma combination_explicitOptions (profit : Q) (zone : string)
    (salaryRatio : Q) (options : Options) :
  Combination.calculateCombinationScenario profit zone salaryRatio
    (Optimizer.explicitOptions options)
  = Combination.calculateCombinationScenario profit zone salaryRatio options.
Proof. reflexivity. Qed.

Lemma payoutAt_Some (profit : Q) (zone : string) (options : Options)
    (r : Z) (s : Combination.Scenario) :
  Combination.calculateCombinationScenario profit zone (inject_Z r)
    (Optimizer.explicitOptions options) = Ok s ->
  payoutAt profit zone options r
  = Some (netPrivatePayout (Combination.results s)).
Proof. intros E. unfold payoutAt. now rewrite E. Qed.

Lemma payoutAt_defined (profit : Q) (zone : string) (options : Options)
    (r : Z) :
  TaxRates.validZone zone -> (0 <= r <= 100)%Z ->
  exists s,
    Combination.calculateCombinationScenario profit zone (inject_Z r)
      (Optimizer.explicitOptions options) = Ok s
    /\ payoutAt profit zone options r
       = Some (netPrivatePayout (Combination.results s)).
Proof.
  intros Hz [H0 H100].
  destruct (combination_returns profit zone (inject_Z r)
              (Optimizer.explicitOptions options) Hz) as [s E].
  - change 0 with (inject_Z 0). rewrite <- Zle_Qle. exact H0.
  - change 100 with (inject_Z 100). rewrite <- Zle_Qle. exact H100.
  - exists s. split; [exact E | now apply payoutAt_Some].
Qed.

(** What a finished call of [findOptimalRatio] returns, in terms of the
    final search state and of the four scenarios it builds afterwards. *)
Lemma findOptimalRatio_returns (fuel : nat) (profit : Q) (zone : string)
    (options : Options) :
  TaxRates.validZone zone -> defaultStep options -> (101 <= fuel)%nat ->
  exists st sOpt s100 s0 s50 res,
    Optimizer.findOptimalRatio fuel profit zone options = Some (Ok res)
    /\ SearchInvariant profit zone (Optimizer.explicitOptions options) 101 st
    /\ Combination.calculateCombinationScenario profit zone
         (inject_Z (Optimizer.optimalRatio st))
         (Optimizer.explicitOptions options) = Ok sOpt
    /\ Combination.calculateCombinationScenario profit zone 100 options
       = Ok s100
    /\ Combination.calculateCombinationScenario profit zone 0 options = Ok s0
    /\ Combination.calculateCombinationScenario profit zone 50 options
       = Ok s50
    /\ Optimizer.resultRatio res = Optimizer.optimalRatio st
    /\ Optimizer.optimalScenario res = sOpt
    /\ Optimizer.comparisonOptimal res
       = {| Optimizer.optRatio := Optimizer.optimalRatio st;
            Optimizer.optNetPayout := Optimizer.optimalNetPayout st;
            Optimizer.optTotalTax := Optimizer.optimalTax st |}
    /\ Optimizer.allSalary res = Optimizer.baseline 100 s100
    /\ Optimizer.allDividend res = Optimizer.baseline 0 s0
    /\ Optimizer.split5050 res = Optimizer.baseline 50 s50.
Proof.
  intros Hz Hstep Hfuel.
  destruct (searchLoop_finishes profit zone
              (Optimizer.explicitOptions options) fuel 0
              Optimizer.initialState) as [st [Eloop Hinv]];
    [lia | lia | apply invariant_initial |].
  assert (0 <= Optimizer.optimalRatio st <= 100)%Z as Hr.
  { destruct Hinv as [_ [(_ & -> & _)|(H & _)]]; lia. }
  destruct (payoutAt_defined profit zone options _ Hz Hr) as [sOpt [EOpt _]].
  destruct (combination_returns profit zone 100 options Hz) as [s100 E100];
    [lra | lra |].
  destruct (combination_returns profit zone 0 options Hz) as [s0 E0];
    [lra | lra |].
  destruct (combination_returns profit zone 50 options Hz) as [s50 E50];
    [lra | lra |].
  exists st, sOpt, s100, s0, s50.
  unfold Optimizer.findOptimalRatio. cbv zeta.
  unfold defaultStep in Hstep. rewrite Hstep, Eloop, EOpt, E100, E0, E50.
  cbn [bind]. eexists. split; [reflexivity|].
  cbn [Optimizer.resultRatio Optimizer.optimalScenario
       Optimizer.comparisonOptimal Optimizer.allSalary Optimizer.allDividend
       Optimizer.split5050].
  repeat (split; [first [assumption | reflexivity]|]). reflexivity.
Qed.

Lemma Math_max_wd (x x' y y' : Q) :
  x == x' -> y == y' -> Math_max x y == Math_max x' y'.
Proof.
  intros Hx Hy.
  destruct (Math_max_spec x y) as [[? ->]|[? ->]];
    destruct (Math_max_spec x' y') as [[? ->]|[? ->]]; lra.
Qed.

(** The unrounded net dividend on a distributable amount [d] when no
    shielding allowance applies. *)
Lemma netDividend_wd (d d' : Q) :
  d == d' ->
  Dividend.netDividend (Dividend.calculateDividendTax d 0)
  = Dividend.netDividend (Dividend.calculateDividendTax d' 0).
Proof.
  intros Hd. unfold Dividend.calculateDividendTax.
  cbn [Dividend.netDividend]. apply Math_round_wd.
  assert (Math_max 0 (d - 0) == Math_max 0 (d' - 0)) as H
    by (apply Math_max_wd; lra).
  rewrite H. lra.
Qed.

(** At ratio 0 the salary side vanishes: the payout of the combination
    scenario is the net dividend on 78% of the extractable budget. *)
Lemma combination_ratio0 (profit : Q) (zone : string) (options : Options) :
  TaxRates.validZone zone ->
  exists s,
    Combination.calculateCombinationScenario profit zone 0 options = Ok s
    /\ netPrivatePayout (Combination.results s)
       = Dividend.netDividend
           (Dividend.calculateDividendTax
              (extractable profit options * (78 # 100)) 0).
Proof.
  intros Hz. destruct (validZone_lookup zone Hz) as [aga Ha].
  unfold Combination.calculateCombinationScenario. cbv zeta.
  change (Qltb 0 0 || Qgtb 0 100) with false. cbv iota.
  fold (extractable profit options).
  unfold Salary.calculateMaxGrossSalary. rewrite Ha. cbv zeta. cbn [bind].
  eexists. split; [reflexivity|].
  cbn [Combination.results netPrivatePayout Salary.grossSalary].
  set (avail := extractable profit options).
  set (f := 1 + aga + _).
  assert (Math_round (avail * (0 / 100) / f) = 0%Z) as Hg.
  { rewrite (Math_round_wd _ 0); [reflexivity|].
    unfold Qdiv. ring. }
  rewrite Hg.
  match goal with
  | |- Math_round (?S + inject_Z ?nd) = _ =>
      assert (S == 0) as HS by (vm_compute; reflexivity);
      rewrite (Math_round_wd (S + inject_Z nd) (inject_Z nd)) by lra
  end.
  rewrite Math_round_inject_Z.
  apply netDividend_wd.
  unfold TaxRates.CORPORATE_TAX_RATE. field.
Qed.

Lemma netDividend_nonneg (d : Q) :
  0 <= d ->
  (0 <= Dividend.netDividend (Dividend.calculateDividendTax d 0))%Z.
Proof.
  intros Hd. unfold Dividend.calculateDividendTax.
  cbn [Dividend.netDividend].
  change 0%Z with (Math_round 0) at 1. apply Math_round_mono.
  rewrite (Math_max_right 0 (d - 0)) by lra.
  unfold TaxRates.DIVIDEND_GROSS_UP_FACTOR, TaxRates.PERSONAL_TAX_RATE.
  lra.
Qed.

(** With a non-negative extractable budget the payout at ratio 0 is not
    negative. *)
Lemma payoutAt_0_nonneg (profit : Q) (zone : string) (options : Options) :
  TaxRates.validZone zone -> 0 <= extractable profit options ->
  exists v, payoutAt profit zone options 0 = Some v /\ (0 <= v)%Z.
Proof.
  intros Hz Havail.
  destruct (combination_ratio0 profit zone
              (Optimizer.explicitOptions options) Hz) as [s [E Hs]].
  exists (netPrivatePayout (Combination.results s)). split.
  - apply payoutAt_Some. exact E.
  - rewrite Hs. apply netDividend_nonneg.
    change (extractable profit (Optimizer.explicitOptions options))
      with (extractable profit options).
    lra.
Qed.


Lemma invariant_first_maximum (profit : Q) (zone : string)
    (options : Options) (st : Optimizer.SearchState) :
  TaxRates.validZone zone ->
  SearchInvariant profit zone (Optimizer.explicitOptions options) 101 st ->
  (exists v, payoutAt profit zone options 0 = Some v /\ (0 <= v)%Z) ->
  IsFirstMaximum profit zone options (Optimizer.optimalRatio st).
Proof.
  intros Hz [Hmax Hbest] [v0 [E0 Hv0]].
  assert (forall r, (0 <= r <= 100)%Z ->
            exists v, payoutAt profit zone options r = Some v
                      /\ (v <= Optimizer.optimalNetPayout st)%Z) as Hall.
  { intros r Hr.
    destruct (payoutAt_defined profit zone options r Hz Hr) as [s [Es Ep]].
    eexists. split; [exact Ep|].
    apply Hmax with (r := r); [lia | exact Es]. }
  destruct Hbest as [(Ht & Hr & Hp)|(Hr & Hpos & (s & Es & Eps & Et) & Hfirst)].
  - (* nothing positive was seen: ratio 0, whose payout is not negative *)
    rewrite Hr. split; [lia|]. exists v0. split; [exact E0|]. split.
    + intros r Hr'. destruct (Hall r Hr') as [v [Ev Hv]].
      exists v. split; [exact Ev | lia].
    + intros r Hr'. lia.
  - split; [lia|]. exists (Optimizer.optimalNetPayout st). split.
    + rewrite <- Eps. now apply payoutAt_Some.
    + split; [exact Hall|].
      intros r Hr'.
      destruct (payoutAt_defined profit zone options r Hz) as [s' [Es' Ep']];
        [lia|].
      eexists. split; [exact Ep'|].
      apply Hfirst with (r := r); [lia | exact Es'].
Qed.

(** C2, as amended: for every profit, valid zone and options with the
    default search step 1 such that the extractable budget is not negative
    (profit >= 0 and a retention fraction of at most 1) and pension is off
    or at a rate that is not negative (so that no amount is divided by
    zero), [findOptimalRatio] returns as [optimalRatio] the first (lowest)
    integer ratio in 0..100 whose combination-scenario net private payout
    attains the maximum over the whole grid. *)
Theorem findOptimalRatio_first_maximum (fuel : nat) (profit : Q)
    (zone : string) (options : Options) :
  TaxRates.validZone zone -> defaultStep options -> (101 <= fuel)%nat ->
  0 <= extractable profit options ->
  orDefault (includePension options) false = false
  \/ 0 <= orDefault (pensionRate options) (2 # 100) ->
  exists res,
    Optimizer.findOptimalRatio fuel profit zone options = Some (Ok res)
    /\ IsFirstMaximum profit zone options (Optimizer.resultRatio res).
Proof.
  intros Hz Hstep Hfuel Havail _.
  destruct (findOptimalRatio_returns fuel profit zone options Hz Hstep Hfuel)
    as (st & sOpt & s100 & s0 & s50 & res & Eres & Hinv & _ & _ & _ & _
        & Hratio & _).
  exists res. split; [exact Eres|]. rewrite Hratio.
  apply invariant_first_maximum; [exact Hz | exact Hinv |].
  now apply payoutAt_0_nonneg.
Qed.

Lemma findOptimalRatio_first_maximum_witness :
  TaxRates.validZone "1" /\ defaultStep noOptions /\ (101 <= 101)%nat
  /\ 0 <= extractable 1000000 noOptions
  /\ orDefault (includePension noOptions) false = false
  /\ exists res,
       Optimizer.findOptimalRatio 101 1000000 "1" noOptions = Some (Ok res)
       /\ IsFirstMaximum 1000000 "1" noOptions (Optimizer.resultRatio res).
Proof.
  assert (TaxRates.validZone "1") as Hz
    by (unfold TaxRates.validZone; simpl; discriminate).
  assert (defaultStep noOptions) as Hs by reflexivity.
  assert (0 <= extractable 1000000 noOptions) as Ha
    by (vm_compute; discriminate).
  split; [exact Hz|]. split; [exact Hs|]. split; [lia|]. split; [exact Ha|].
  split; [reflexivity|].
  exact (findOptimalRatio_first_maximum 101 1000000 "1" noOptions Hz Hs
           (le_n 101) Ha (or_introl eq_refl)).
Defined.

(** C2 as stated fails: for a profit of -1000 in zone '1' with pension at
    7% every payout is negative, the greatest one (-755) is at ratio 100,
    and [findOptimalRatio] returns ratio 0, whose payout is -780. *)
Lemma findOptimalRatio_misses_maximum :
  TaxRates.validZone "1" /\ defaultStep pensionMax
  /\ exists res,
       Optimizer.findOptimalRatio 101 (-1000) "1" pensionMax
       = Some (Ok res)
       /\ Optimizer.resultRatio res = 0%Z
       /\ payoutAt (-1000) "1" pensionMax 0 = Some (-780)%Z
       /\ payoutAt (-1000) "1" pensionMax 100 = Some (-755)%Z
       /\ ~ IsFirstMaximum (-1000) "1" pensionMax (Optimizer.resultRatio res).
Proof.
  split; [unfold TaxRates.validZone; simpl; discriminate|].
  split; [reflexivity|].
  assert (payoutAt (-1000) "1" pensionMax 0 = Some (-780)%Z) as E0
    by (vm_compute; reflexivity).
  assert (payoutAt (-1000) "1" pensionMax 100 = Some (-755)%Z) as E100
    by (vm_compute; reflexivity).
  assert (returnedRatio
            (Optimizer.findOptimalRatio 101 (-1000) "1" pensionMax)
          = Some 0%Z) as Hret by (vm_compute; reflexivity).
  destruct (Optimizer.findOptimalRatio 101 (-1000) "1" pensionMax)
    as [[res|msg]|];
    [ | simpl in Hret; discriminate Hret | simpl in Hret; discriminate Hret ].
  exists res. split; [reflexivity|].
  assert (Optimizer.resultRatio res = 0%Z) as Hr
    by (simpl in Hret; injection Hret; auto).
  split; [exact Hr|]. split; [exact E0|]. split; [exact E100|].
  rewrite Hr. intros (_ & best & Eb & Hall & _).
  destruct (Hall 100%Z ltac:(lia)) as (v & Ev & Hv).
  rewrite E0 in Eb. rewrite E100 in Ev.
  inversion Eb. inversion Ev. subst. lia.
Qed.

(** C3, as amended: for every profit, valid zone and options with the
    default search step such that the extractable budget is not negative
    and pension is off or at a rate that is not negative (so that no
    amount is divided by zero), the [optimalScenario] returned by
    [findOptimalRatio] has a net private payout greater than or equal to
    the net payout of each of the three baselines it also returns
    (ratio 100, ratio 0, ratio 50). *)
Theorem optimum_dominates_baselines (fuel : nat) (profit : Q)
    (zone : string) (options : Options) :
  TaxRates.validZone zone -> defaultStep options -> (101 <= fuel)%nat ->
  0 <= extractable profit options ->
  orDefault (includePension options) false = false
  \/ 0 <= orDefault (pensionRate options) (2 # 100) ->
  exists res,
    Optimizer.findOptimalRatio fuel profit zone options = Some (Ok res)
    /\ (Optimizer.baseNetPayout (Optimizer.allSalary res)
        <= netPrivatePayout
             (Combination.results (Optimizer.optimalScenario res)))%Z
    /\ (Optimizer.baseNetPayout (Optimizer.allDividend res)
        <= netPrivatePayout
             (Combination.results (Optimizer.optimalScenario res)))%Z
    /\ (Optimizer.baseNetPayout (Optimizer.split5050 res)
        <= netPrivatePayout
             (Combination.results (Optimizer.optimalScenario res)))%Z.
Proof.
  intros Hz Hstep Hfuel Havail _.
  destruct (findOptimalRatio_returns fuel profit zone options Hz Hstep Hfuel)
    as (st & sOpt & s100 & s0 & s50 & res & Eres & Hinv & EOpt & E100 & E0
        & E50 & Hratio & HsOpt & _ & H100 & H0 & H50).
  exists res. split; [exact Eres|].
  rewrite HsOpt, H100, H0, H50. cbn [Optimizer.baseline Optimizer.baseNetPayout].
  pose proof (invariant_first_maximum profit zone options st Hz Hinv
                (payoutAt_0_nonneg profit zone options Hz Havail))
    as (_ & best & Ebest & Hall & _).
  rewrite (payoutAt_Some _ _ _ _ _ EOpt) in Ebest.
  injection Ebest as Ebest. rewrite Ebest.
  rewrite <- combination_explicitOptions in E100, E0, E50.
  repeat split.
  - destruct (Hall 100%Z ltac:(lia)) as (v & Ev & Hv).
    rewrite (payoutAt_Some _ _ _ 100%Z _ E100) in Ev.
    injection Ev as Ev. lia.
  - destruct (Hall 0%Z ltac:(lia)) as (v & Ev & Hv).
    rewrite (payoutAt_Some _ _ _ 0%Z _ E0) in Ev.
    injection Ev as Ev. lia.
  - destruct (Hall 50%Z ltac:(lia)) as (v & Ev & Hv).
    rewrite (payoutAt_Some _ _ _ 50%Z _ E50) in Ev.
    injection Ev as Ev. lia.
Qed.

Lemma optimum_dominates_baselines_witness :
  TaxRates.validZone "1" /\ defaultStep noOptions /\ (101 <= 101)%nat
  /\ 0 <= extractable 1000000 noOptions
  /\ orDefault (includePension noOptions) false = false
  /\ exists res,
       Optimizer.findOptimalRatio 101 1000000 "1" noOptions = Some (Ok res)
       /\ (Optimizer.baseNetPayout (Optimizer.allSalary res)
           <= netPrivatePayout
                (Combination.results (Optimizer.optimalScenario res)))%Z
       /\ (Optimizer.baseNetPayout (Optimizer.allDividend res)
           <= netPrivatePayout
                (Combination.results (Optimizer.optimalScenario res)))%Z
       /\ (Optimizer.baseNetPayout (Optimizer.split5050 res)
           <= netPrivatePayout
                (Combination.results (Optimizer.optimalScenario res)))%Z.
Proof.
  assert (TaxRates.validZone "1") as Hz
    by (unfold TaxRates.validZone; simpl; discriminate).
  assert (defaultStep noOptions) as Hs by reflexivity.
  assert (0 <= extractable 1000000 noOptions) as Ha
    by (vm_compute; discriminate).
  split; [exact Hz|]. split; [exact Hs|]. split; [lia|]. split; [exact Ha|].
  split; [reflexivity|].
  exact (optimum_dominates_baselines 101 1000000 "1" noOptions Hz Hs
           (le_n 101) Ha (or_introl eq_refl)).
Defined.

(** C3 as stated fails: for a profit of -100 000 in zone '1' with pension
    at 7% the returned optimal scenario (ratio 0) pays out -78 000, less
    than the all-salary baseline's -75 520. *)
Lemma optimum_below_salary_baseline :
  TaxRates.validZone "1" /\ defaultStep pensionMax
  /\ exists res,
       Optimizer.findOptimalRatio 101 (-100000) "1" pensionMax
       = Some (Ok res)
       /\ netPrivatePayout
            (Combination.results (Optimizer.optimalScenario res))
          = (-78000)%Z
       /\ Optimizer.baseNetPayout (Optimizer.allSalary res) = (-75520)%Z
       /\ (netPrivatePayout
             (Combination.results (Optimizer.optimalScenario res))
           < Optimizer.baseNetPayout (Optimizer.allSalary res))%Z.
Proof.
  split; [unfold TaxRates.validZone; simpl; discriminate|].
  split; [reflexivity|].
  assert (exists d5,
            returnedPayouts
              (Optimizer.findOptimalRatio 101 (-100000) "1" pensionMax)
            = Some ((-78000)%Z, ((-75520)%Z, (-78000)%Z, d5))) as [d5 Hret]
    by (eexists; vm_compute; reflexivity).
  destruct (Optimizer.findOptimalRatio 101 (-100000) "1" pensionMax)
    as [[res|msg]|];
    [ | simpl in Hret; discriminate Hret | simpl in Hret; discriminate Hret ].
  exists res. split; [reflexivity|].
  simpl in Hret. injection Hret as H1 H2 H3 H4.
  rewrite H1, H2. split; [reflexivity|]. split; [reflexivity|]. lia.
Qed.






(** ** Combination scenario at the ends of the ratio range *)

(** At ratio 0 the combination scenario pays out exactly what the
    dividend scenario with zero share cost basis pays out. *)
Lemma combination_0_equals_dividend (profit : Q) (zone : string)
    (options : Options) :
  TaxRates.validZone zone ->
  orDefault (shareCostBasis options) 0 == 0 ->
  exists c,
    Combination.calculateCombinationScenario profit zone 0 options = Ok c
    /\ netPrivatePayout (Combination.results c)
       = netPrivatePayout
           (Dividend.results
              (Dividend.calculateDividendScenario profit options)).
Proof.
  intros Hz Hbasis.
  destruct (combination_ratio0 profit zone options Hz) as [c [E Hc]].
  exists c. split; [exact E|]. rewrite Hc.
  unfold Dividend.calculateDividendScenario. cbv zeta.
  cbn [Dividend.results netPrivatePayout].
  rewrite Math_round_inject_Z.
  fold (extractable profit options).
  set (avail := extractable profit options).
  assert (Dividend.calculateSkjermingsfradrag
            (orDefault (shareCostBasis options) 0) = 0%Z) as Hskj.
  { unfold Dividend.calculateSkjermingsfradrag.
    destruct (Qeq_bool (orDefault (shareCostBasis options) 0) 0) eqn:Eb;
      [reflexivity|].
    apply Qeq_bool_neq in Eb. contradiction. }
  rewrite Hskj.
  unfold Dividend.calculateDividendTax. cbn [Dividend.netDividend].
  apply Math_round_wd.
  set (d := avail - avail * TaxRates.CORPORATE_TAX_RATE).
  assert (d == avail * (78 # 100)) as Hd
    by (unfold d, TaxRates.CORPORATE_TAX_RATE; ring).
  change (inject_Z 0) with 0.
  unfold TaxRates.DIVIDEND_GROSS_UP_FACTOR, TaxRates.PERSONAL_TAX_RATE.
  destruct (Math_max_spec 0 (avail * (78 # 100) - 0)) as [[H2 ->]|[H2 ->]];
    destruct (Math_min_spec 0 d) as [[H1 ->]|[H1 ->]].
  - destruct (Math_max_spec 0 (d - 0)) as [[H3 ->]|[H3 ->]]; lra.
  - destruct (Math_max_spec 0 (d - d)) as [[H3 ->]|[H3 ->]]; lra.
  - destruct (Math_max_spec 0 (d - 0)) as [[H3 ->]|[H3 ->]]; lra.
  - destruct (Math_max_spec 0 (d - d)) as [[H3 ->]|[H3 ->]]; lra.
Qed.

Lemma Ok_injective {A} (a b : A) : Ok a = Ok b -> a = b.
Proof. intros H. now injection H. Qed.

Lemma trinnskattLoop_exact (g : Q) :
  Combination.trinnskattLoop TaxRates.BRACKET_TAX_2025
    TaxRates.BRACKET_TAX_2025 0 g 0
  == bracketTaxExact g.
Proof.
  rewrite bracketTaxExact_piecewise.
  unfold bracketTaxPiecewise, TaxRates.BRACKET_TAX_2025.
  cbn [Combination.trinnskattLoop nth_error TaxRates.threshold
       TaxRates.rate].
  repeat match goal with
    | |- context [Qeq_bool ?a 0] => change (Qeq_bool a 0) with false
    end.
  cbv iota.
  split_regions g; settle_comparisons; lra.
Qed.

Lemma calculateMaxGrossSalary_wd (budget budget' : Q) (zone : string)
    (ip : bool) (pr : Q) :
  budget == budget' ->
  Salary.calculateMaxGrossSalary budget zone ip pr
  = Salary.calculateMaxGrossSalary budget' zone ip pr.
Proof.
  intros Hb. unfold Salary.calculateMaxGrossSalary.
  destruct (TaxRates.lookup zone TaxRates.EMPLOYER_SOCIAL_SECURITY_RATES)
    as [aga|]; [|reflexivity].
  cbv zeta.
  set (f := 1 + aga + _).
  assert (budget / f == budget' / f) as Hg by now rewrite Hb.
  f_equal. destruct ip.
  - f_equal; apply Math_round_wd; rewrite ?Hg; reflexivity.
  - f_equal; apply Math_round_wd; rewrite ?Hg; reflexivity.
Qed.

(** Above the social security threshold the two paths tax the same gross
    salary by the same rules and differ only in where they round: at
    ratio 100 the combination scenario pays out what the salary scenario
    pays out, within 3 currency units. *)
Lemma combination_100_close_to_salary (profit : Q) (zone : string)
    (options : Options) (s : SalaryScenario.Scenario)
    (c : Combination.Scenario) :
  SalaryScenario.calculateSalaryScenario profit zone options = Ok s ->
  Combination.calculateCombinationScenario profit zone 100 options = Ok c ->
  TaxRates.SOCIAL_SECURITY_THRESHOLD
  < inject_Z (SalaryScenario.grossSalaryPaid s) ->
  within 3
    (inject_Z (netPrivatePayout (Combination.results c)))
    (inject_Z (netPrivatePayout (SalaryScenario.results s))).
Proof.
  unfold SalaryScenario.calculateSalaryScenario,
    Combination.calculateCombinationScenario. cbv zeta.
  change (Qltb 100 0 || Qgtb 100 100) with false. cbv iota.
  fold (extractable profit options).
  change TaxRates.OTP_MIN_RATE with (2 # 100).
  rewrite (calculateMaxGrossSalary_wd
             (extractable profit options * (100 / 100))
             (extractable profit options)) by field.
  destruct (Salary.calculateMaxGrossSalary (extractable profit options) zone
              (orDefault (includePension options) false)
              (orDefault (pensionRate options) (2 # 100))) as [sc|msg];
    [|discriminate].
  cbn [bind]. intros Es Ec.
  apply Ok_injective in Es. apply Ok_injective in Ec. subst s c.
  cbn [SalaryScenario.grossSalaryPaid SalaryScenario.results
       Combination.results netPrivatePayout].
  intros Hthr.
  rewrite (netDividend_wd _ 0)
    by (unfold TaxRates.CORPORATE_TAX_RATE; field).
  change (Dividend.netDividend (Dividend.calculateDividendTax 0 0))
    with 0%Z.
  change (inject_Z 0) with 0.
  set (g := inject_Z (Salary.grossSalary sc)) in *.
  unfold Salary.calculateSocialSecurityContribution.
  assert (Qle_bool g TaxRates.SOCIAL_SECURITY_THRESHOLD = false) as Hb.
  { destruct (Qle_bool g TaxRates.SOCIAL_SECURITY_THRESHOLD) eqn:Eb;
      [|reflexivity].
    apply Qle_bool_iff in Eb. lra. }
  rewrite Hb.
  rewrite calculateBracketTax_exact.
  unfold Salary.calculateIncomeTax, Salary.calculateMinstefradrag. cbv zeta.
  rewrite trinnskattLoop_exact.
  set (m := Math_min (Math_min (Math_max _ _) _) g).
  set (P := TaxRates.PERSONFRADRAG).
  pose proof (Math_round_upper m) as Hm1.
  pose proof (Math_round_lower m) as Hm2.
  set (mR := inject_Z (Math_round m)) in *.
  set (t1 := g * TaxRates.SOCIAL_SECURITY_RATES_salary).
  set (t2 := bracketTaxExact g).
  pose proof (Math_round_upper t1). pose proof (Math_round_lower t1).
  pose proof (Math_round_upper t2). pose proof (Math_round_lower t2).
  pose proof (Math_round_upper (Math_max 0 (g - mR - P)
                                * TaxRates.PERSONAL_TAX_RATE)).
  pose proof (Math_round_lower (Math_max 0 (g - mR - P)
                                * TaxRates.PERSONAL_TAX_RATE)).
  set (net := g - (t1 + t2 + Math_max 0 (g - m - P)
                                * TaxRates.PERSONAL_TAX_RATE) + 0).
  pose proof (Math_round_upper net). pose proof (Math_round_lower net).
  push_inject_Z. fold g. unfold within, net in *.
  unfold TaxRates.PERSONAL_TAX_RATE in *.
  destruct (Math_max_spec 0 (g - mR - P)) as [[? E1]|[? E1]];
    destruct (Math_max_spec 0 (g - m - P)) as [[? E2]|[? E2]];
    rewrite E1, E2 in *; lra.
Qed.

(** C4, at the input where it fails: a profit of 50 000 in zone '5' gives
    a gross salary of 50 000, below the social security threshold of
    69 650.  [calculateSalaryScenario] charges no social security
    contribution and pays out 50 000; [calculateCombinationScenario] at
    ratio 100 charges 7.8% on the whole salary and pays out 46 100. *)
Theorem combination_100_omits_threshold :
  exists s c,
    SalaryScenario.calculateSalaryScenario 50000 "5" noOptions = Ok s
    /\ Combination.calculateCombinationScenario 50000 "5" 100 noOptions
       = Ok c
    /\ SalaryScenario.grossSalaryPaid s = 50000%Z
    /\ Combination.grossSalaryPaid c = 50000%Z
    /\ SalaryScenario.trygdeavgift s = 0%Z
    /\ Combination.trygdeavgift c = 3900%Z
    /\ netPrivatePayout (SalaryScenario.results s) = 50000%Z
    /\ netPrivatePayout (Combination.results c) = 46100%Z.
Proof.
  eexists. eexists.
  split; [reflexivity|]. split; [reflexivity|].
  repeat split; vm_compute; reflexivity.
Qed.


(** ** Input validation *)

Section ValidationProperties.
Import Validation.
Local Set Warnings "-inexact-float".
Variable host : Host.












(** *** Pension rate bounds *)

(** What [validatePensionSettings] does with [{enabled: true, rate: r}]
    for a number [r]: the rate is read as a fraction when [0 < r < 1] and
    as a whole percentage otherwise; the percentage value (for a fraction
    the binary64 product [r * 100]) is tested against 2 and 7; an accepted
    fraction is returned as it is, an accepted percentage divided by
    100. *)
Lemma validatePensionSettings_number (r : float) :
  let isDecimal := PrimFloat.ltb 0 r && PrimFloat.ltb r 1 in
  let percentage := if isDecimal then (r * 100)%float else r in
  validatePensionSettings host
    (JObject [("enabled"%string, JBool true); ("rate"%string, JNumber r)])
  = if is_nan percentage then
      invalid "Pensjonssats må være et tall (Pension rate must be a number)"
    else if PrimFloat.ltb percentage 2 then
      invalid "Pensjonssats må være minst 2% (OTP minimum) (Pension rate must be at least 2%)"
    else if PrimFloat.ltb 7 percentage then
      invalid "Pensjonssats over 7% er ikke fradragsberettiget (Pension rate above 7% is not tax-deductible)"
    else
      valid {| pensionEnabled := true;
               pensionRateValue :=
                 JNumber (if isDecimal then r else (r / 100)%float) |}.
Proof.
  cbv zeta. unfold validatePensionSettings.
  cbn [isFalsy getProp getOwn String.eqb Ascii.eqb Bool.eqb isFalse isTrue
       orb ToNumber].
  destruct (PrimFloat.ltb 0 r && PrimFloat.ltb r 1); reflexivity.
Qed.

(** C8, at the input where it fails: the fraction 0.07 (what the form
    sends for 7%, [7 / 100]) lies in [0.02, 0.07], but its binary64 product
    with 100 is 7.000000000000001 and the rate is rejected as above 7%.
    The fraction 0.02 and the whole percentages 2 and 7 are accepted and
    returned as 0.02, 0.02 and 0.07. *)
Theorem pension_rate_7_percent_fraction_rejected :
  (7 / 100 = 0.07)%float
  /\ PrimFloat.ltb 0 0.07 && PrimFloat.ltb 0.07 1 = true
  /\ PrimFloat.leb 0.02 0.07 && PrimFloat.leb 0.07 0.07 = true
  /\ PrimFloat.ltb 7 (0.07 * 100) = true
  /\ validatePensionSettings host
       (JObject [("enabled"%string, JBool true); ("rate"%string, JNumber 0.07)])
     = invalid "Pensjonssats over 7% er ikke fradragsberettiget (Pension rate above 7% is not tax-deductible)"
  /\ validatePensionSettings host
       (JObject [("enabled"%string, JBool true); ("rate"%string, JNumber 0.02)])
     = valid {| pensionEnabled := true; pensionRateValue := JNumber 0.02 |}
  /\ validatePensionSettings host
       (JObject [("enabled"%string, JBool true); ("rate"%string, JNumber 7)])
     = valid {| pensionEnabled := true; pensionRateValue := JNumber 0.07 |}
  /\ validatePensionSettings host
       (JObject [("enabled"%string, JBool true); ("rate"%string, JNumber 2)])
     = valid {| pensionEnabled := true; pensionRateValue := JNumber 0.02 |}.
Proof.
  repeat split; try (vm_compute; reflexivity);
    rewrite validatePensionSettings_number; vm_compute; reflexivity.
Qed.

End ValidationProperties.

(** * Further properties of the calculation engine *)

(** ** Salary components *)

Lemma bracketTaxExact_bounds (g : Q) :
  0 <= bracketTaxExact g
  /\ (0 <= g -> bracketTaxExact g <= (176 # 1000) * g).
Proof.
  rewrite bracketTaxExact_piecewise. unfold bracketTaxPiecewise.
  split; [|intros Hg]; split_regions g; lra.
Qed.

Lemma Math_round_nonneg (x : Q) : 0 <= x -> (0 <= Math_round x)%Z.
Proof.
  intros H. change 0%Z with (Math_round 0). now apply Math_round_mono.
Qed.























(** ** Salary scenario *)

Lemma Qdiv_nonneg (a f : Q) : 0 <= a -> 0 < f -> 0 <= a / f.
Proof. intros Ha Hf. apply Qle_shift_div_l; [exact Hf | lra]. Qed.

Lemma Qdiv_le_numerator (a f : Q) : 0 <= a -> 1 <= f -> a / f <= a.
Proof.
  intros Ha Hf. apply Qle_shift_div_r; [lra|]. nra.
Qed.

(** With a non-negative budget the gross salary is not negative and does
    not exceed the budget. *)
Lemma maxGrossSalary_gross_bounds (budget : Q) (zone : string) (ip : bool)
    (pr : Q) (sc : Salary.MaxGrossSalary) :
  Salary.calculateMaxGrossSalary budget zone ip pr = Ok sc ->
  0 <= budget -> ip = false \/ 0 <= pr ->
  (0 <= Salary.grossSalary sc <= Math_round budget)%Z.
Proof.
  unfold Salary.calculateMaxGrossSalary.
  destruct (TaxRates.lookup zone TaxRates.EMPLOYER_SOCIAL_SECURITY_RATES)
    as [aga|] eqn:Ha; [|discriminate].
  apply lookup_zone_bounds in Ha. destruct Ha as [Ha0 Ha1].
  intros E Hb Hp. apply Ok_injective in E. subst sc.
  cbn [Salary.grossSalary].
  set (f := 1 + aga + _).
  assert (1 <= f) as Hf.
  { unfold f. destruct ip; [|lra].
    destruct Hp as [Hp|Hp]; [discriminate|]. nra. }
  split.
  - apply Math_round_nonneg. apply Qdiv_nonneg; lra.
  - apply Math_round_mono. now apply Qdiv_le_numerator.
Qed.



(** ** Dividend components *)

Lemma dividendTax_unfold (d s : Q) :
  Dividend.dividendTax (Dividend.calculateDividendTax d s)
  = Math_round (Math_max 0 (d - s) * (172 # 100) * (22 # 100)).
Proof. reflexivity. Qed.

Lemma netDividend_unfold (d s : Q) :
  Dividend.netDividend (Dividend.calculateDividendTax d s)
  = Math_round (d - Math_max 0 (d - s) * (172 # 100) * (22 # 100)).
Proof. reflexivity. Qed.


(** The net dividend grows with the allowance. *)
Lemma netDividend_monotone_allowance (d s s' : Q) :
  s <= s' ->
  (Dividend.netDividend (Dividend.calculateDividendTax d s)
   <= Dividend.netDividend (Dividend.calculateDividendTax d s'))%Z
  /\ (Dividend.dividendTax (Dividend.calculateDividendTax d s')
      <= Dividend.dividendTax (Dividend.calculateDividendTax d s))%Z.
Proof.
  intros Hs. rewrite !netDividend_unfold, !dividendTax_unfold.
  split; apply Math_round_mono;
    destruct (Math_max_spec 0 (d - s)) as [[? ->]|[? ->]];
    destruct (Math_max_spec 0 (d - s')) as [[? ->]|[? ->]]; lra.
Qed.


(** *** Dividend scenario *)

Lemma skjermingsfradrag_nonneg (costBasis : Q) :
  (0 <= Dividend.calculateSkjermingsfradrag costBasis)%Z.
Proof.
  unfold Dividend.calculateSkjermingsfradrag.
  destruct (Qeq_bool costBasis 0 || Qle_bool costBasis 0) eqn:E; [lia|].
  apply orb_false_iff in E. destruct E as [_ E].
  apply Qle_bool_false in E. apply Math_round_nonneg.
  unfold TaxRates.SKJERMING_RATE_2025. lra.
Qed.

Lemma skjermingsfradrag_zero (costBasis : Q) :
  costBasis <= 0 -> Dividend.calculateSkjermingsfradrag costBasis = 0%Z.
Proof.
  intros H. unfold Dividend.calculateSkjermingsfradrag.
  apply Qle_bool_iff in H. rewrite H. now rewrite orb_true_r.
Qed.

Lemma skjermingsfradrag_monotone (c c' : Q) :
  c <= c' ->
  (Dividend.calculateSkjermingsfradrag c
   <= Dividend.calculateSkjermingsfradrag c')%Z.
Proof.
  intros Hc.
  destruct (Qlt_le_dec 0 c) as [Hpos|Hneg].
  - unfold Dividend.calculateSkjermingsfradrag.
    assert (forall x, 0 < x -> Qeq_bool x 0 || Qle_bool x 0 = false) as Hb.
    { intros x Hx. apply orb_false_iff. split.
      - destruct (Qeq_bool x 0) eqn:E; [|reflexivity].
        apply Qeq_bool_iff in E. lra.
      - destruct (Qle_bool x 0) eqn:E; [|reflexivity].
        apply Qle_bool_iff in E. lra. }
    rewrite (Hb c Hpos), (Hb c') by lra.
    apply Math_round_mono. unfold TaxRates.SKJERMING_RATE_2025. lra.
  - rewrite (skjermingsfradrag_zero c Hneg).
    apply skjermingsfradrag_nonneg.
Qed.

Lemma dividendScenario_payout_unfold (profit : Q) (options : Options) :
  let avail := extractable profit options in
  let d := avail - avail * TaxRates.CORPORATE_TAX_RATE in
  netPrivatePayout
    (Dividend.results (Dividend.calculateDividendScenario profit options))
  = Dividend.netDividend
      (Dividend.calculateDividendTax d
         (Math_min
            (inject_Z (Dividend.calculateSkjermingsfradrag
                         (orDefault (shareCostBasis options) 0)))
            d)).
Proof.
  cbv zeta. unfold Dividend.calculateDividendScenario. cbv zeta.
  cbn [Dividend.results netPrivatePayout].
  now rewrite Math_round_inject_Z.
Qed.

Lemma Math_min_monotone_left (a a' b : Q) :
  a <= a' -> Math_min a b <= Math_min a' b.
Proof.
  intros H.
  destruct (Math_min_spec a b) as [[? ->]|[? ->]];
    destruct (Math_min_spec a' b) as [[? ->]|[? ->]]; lra.
Qed.

(** A greater share cost basis never lowers the payout of the dividend
    scenario. *)
Lemma dividendScenario_monotone_costBasis (profit : Q) (options : Options)
    (c c' : Q) :
  c <= c' ->
  (netPrivatePayout
     (Dividend.results
        (Dividend.calculateDividendScenario profit
           (setShareCostBasis c options)))
   <= netPrivatePayout
        (Dividend.results
           (Dividend.calculateDividendScenario profit
              (setShareCostBasis c' options))))%Z.
Proof.
  intros Hc. rewrite !dividendScenario_payout_unfold. cbv zeta.
  change (extractable profit (setShareCostBasis c options))
    with (extractable profit options).
  change (extractable profit (setShareCostBasis c' options))
    with (extractable profit options).
  cbn [setShareCostBasis shareCostBasis orDefault].
  apply netDividend_monotone_allowance.
  apply Math_min_monotone_left. rewrite <- Zle_Qle.
  now apply skjermingsfradrag_monotone.
Qed.

Lemma dividendScenario_tax_unfold (profit : Q) (options : Options) :
  let avail := extractable profit options in
  let d := avail - avail * TaxRates.CORPORATE_TAX_RATE in
  totalTaxPaid
    (Dividend.results (Dividend.calculateDividendScenario profit options))
  = Z.add (Dividend.calculateCorporateTax profit)
      (Dividend.dividendTax
         (Dividend.calculateDividendTax d
            (Math_min
               (inject_Z (Dividend.calculateSkjermingsfradrag
                            (orDefault (shareCostBasis options) 0)))
               d))).
Proof.
  cbv zeta. unfold Dividend.calculateDividendScenario. cbv zeta.
  cbn [Dividend.results totalTaxPaid].
  now rewrite Math_round_inject_Z.
Qed.

(** X8: in the dividend scenario a greater share cost basis never lowers
    the net private payout and never raises the total tax; the allowance
    used never exceeds the dividend distributed, so the personal dividend
    tax is never negative and the payout never exceeds the dividend
    distributed. *)
Theorem dividendScenario_allowance_effect :
  (forall (profit : Q) (options : Options) (c c' : Q),
     c <= c' ->
     (netPrivatePayout
        (Dividend.results
           (Dividend.calculateDividendScenario profit
              (setShareCostBasis c options)))
      <= netPrivatePayout
           (Dividend.results
              (Dividend.calculateDividendScenario profit
                 (setShareCostBasis c' options))))%Z
     /\ (totalTaxPaid
           (Dividend.results
              (Dividend.calculateDividendScenario profit
                 (setShareCostBasis c' options)))
         <= totalTaxPaid
              (Dividend.results
                 (Dividend.calculateDividendScenario profit
                    (setShareCostBasis c options))))%Z)
  /\ (forall (profit : Q) (options : Options),
        let s := Dividend.calculateDividendScenario profit options in
        (Dividend.skjermingsfradragUsed s <= Dividend.dividendDistributed s)%Z
        /\ (0 <= Dividend.personalDividendTax s)%Z
        /\ (netPrivatePayout (Dividend.results s)
            <= Dividend.dividendDistributed s)%Z).
Proof.
  split.
  - intros profit options c c' Hc.
    split; [now apply dividendScenario_monotone_costBasis|].
    rewrite !dividendScenario_tax_unfold. cbv zeta.
    change (extractable profit (setShareCostBasis c options))
      with (extractable profit options).
    change (extractable profit (setShareCostBasis c' options))
      with (extractable profit options).
    cbn [setShareCostBasis shareCostBasis orDefault].
    apply Z.add_le_mono_l.
    apply netDividend_monotone_allowance.
    apply Math_min_monotone_left. rewrite <- Zle_Qle.
    now apply skjermingsfradrag_monotone.
  - intros profit options. cbv zeta.
    rewrite dividendScenario_payout_unfold. cbv zeta.
    unfold Dividend.calculateDividendScenario. cbv zeta.
    cbn [Dividend.skjermingsfradragUsed Dividend.dividendDistributed
         Dividend.personalDividendTax].
    fold (extractable profit options).
    set (d := extractable profit options
              - extractable profit options * TaxRates.CORPORATE_TAX_RATE).
    set (skj := Math_min _ d).
    assert (skj <= d) as Hs
      by (unfold skj;
          destruct (Math_min_spec
                      (inject_Z (Dividend.calculateSkjermingsfradrag
                                   (orDefault (shareCostBasis options) 0)))
                      d) as [[? ->]|[? ->]]; lra).
    rewrite Math_round_inject_Z.
    rewrite netDividend_unfold, dividendTax_unfold.
    split; [now apply Math_round_mono|].
    split.
    + apply Math_round_nonneg.
      destruct (Math_max_spec 0 (d - skj)) as [[? ->]|[? ->]]; lra.
    + apply Math_round_mono.
      destruct (Math_max_spec 0 (d - skj)) as [[? ->]|[? ->]]; lra.
Qed.



(** ** Scenario edge cases *)

(** X10: at ratio 0 the combination scenario applies no shielding
    allowance: for a valid zone and pension off or at a rate that is not
    negative it pays out what the dividend scenario pays out for a share
    cost basis of 0, which is never more than the dividend scenario pays
    out for the actual cost basis. *)
Theorem combination_ratio0_below_dividend (profit : Q) (zone : string)
    (options : Options) :
  TaxRates.validZone zone ->
  orDefault (includePension options) false = false
  \/ 0 <= orDefault (pensionRate options) (2 # 100) ->
  exists c,
    Combination.calculateCombinationScenario profit zone 0 options = Ok c
    /\ netPrivatePayout (Combination.results c)
       = netPrivatePayout
           (Dividend.results
              (Dividend.calculateDividendScenario profit
                 (setShareCostBasis 0 options)))
    /\ (netPrivatePayout (Combination.results c)
        <= netPrivatePayout
             (Dividend.results
                (Dividend.calculateDividendScenario profit options)))%Z.
Proof.
  intros Hz _.
  destruct (combination_0_equals_dividend profit zone
              (setShareCostBasis 0 options) Hz) as [c [Hc Hp]];
    [reflexivity|].
  change (Combination.calculateCombinationScenario profit zone 0
            (setShareCostBasis 0 options))
    with (Combination.calculateCombinationScenario profit zone 0 options)
    in Hc.
  exists c. split; [exact Hc|]. split; [exact Hp|].
  rewrite Hp.
  change (Dividend.calculateDividendScenario profit options)
    with (Dividend.calculateDividendScenario profit
            (setShareCostBasis (orDefault (shareCostBasis options) 0)
               options)).
  destruct (Qlt_le_dec (orDefault (shareCostBasis options) 0) 0) as [Hn|Hn].
  - rewrite !dividendScenario_payout_unfold. cbv zeta.
    cbn [setShareCostBasis shareCostBasis orDefault].
    rewrite (skjermingsfradrag_zero (orDefault (shareCostBasis options) 0))
      by lra.
    rewrite (skjermingsfradrag_zero 0) by lra.
    apply Z.le_refl.
  - now apply dividendScenario_monotone_costBasis.
Qed.

Lemma combination_ratio0_below_dividend_witness :
  TaxRates.validZone "1"
  /\ orDefault (includePension retainSome) false = false
  /\ exists c,
       Combination.calculateCombinationScenario 1000000 "1" 0 retainSome
       = Ok c
       /\ (netPrivatePayout (Combination.results c)
           <= netPrivatePayout
                (Dividend.results
                   (Dividend.calculateDividendScenario 1000000 retainSome)))%Z.
Proof.
  assert (TaxRates.validZone "1") as Hz by (vm_compute; discriminate).
  split; [exact Hz|]. split; [reflexivity|].
  destruct (combination_ratio0_below_dividend 1000000 "1" retainSome Hz
              (or_introl eq_refl)) as [c [Hc [_ Hle]]].
  exists c. split; [exact Hc | exact Hle].
Defined.






(** ** The combination scenario *)

(** The salary taxes that [calculateCombinationScenario] computes inline
    (unrounded) lie between 0 and 47.4% of the gross salary. *)
Lemma combination_salaryTax_bounds (g : Q) :
  0 <= g ->
  let tax :=
    g * TaxRates.SOCIAL_SECURITY_RATES_salary
    + Combination.trinnskattLoop TaxRates.BRACKET_TAX_2025
        TaxRates.BRACKET_TAX_2025 0 g 0
    + Math_max 0
        (g - Math_min
               (Math_min
                  (Math_max (g * TaxRates.MINSTEFRADRAG_rate)
                     TaxRates.MINSTEFRADRAG_minimum)
                  TaxRates.MINSTEFRADRAG_maximum)
               g
         - TaxRates.PERSONFRADRAG) * TaxRates.PERSONAL_TAX_RATE in
  0 <= tax /\ tax <= (474 # 1000) * g.
Proof.
  intros Hg. cbv zeta. rewrite trinnskattLoop_exact.
  destruct (bracketTaxExact_bounds g) as [Hb0 Hb1]. specialize (Hb1 Hg).
  unfold TaxRates.SOCIAL_SECURITY_RATES_salary, TaxRates.MINSTEFRADRAG_rate,
    TaxRates.MINSTEFRADRAG_minimum, TaxRates.MINSTEFRADRAG_maximum,
    TaxRates.PERSONFRADRAG, TaxRates.PERSONAL_TAX_RATE.
  set (m := Math_min _ g).
  assert (0 <= m) as Hm.
  { unfold m.
    repeat match goal with
           | |- context [Math_min ?a ?b] =>
               destruct (Math_min_spec a b) as [[? ->]|[? ->]]
           | |- context [Math_max ?a ?b] =>
               destruct (Math_max_spec a b) as [[? ->]|[? ->]]
           end; lra. }
  match goal with
  | |- context [Math_max 0 ?x] =>
      destruct (Math_max_spec 0 x) as [[? ->]|[? ->]]
  end; split; lra.
Qed.

(** X12: for a valid zone, a ratio in [0,100], a non-negative extractable
    budget and pension off or at a non-negative rate, the combination
    scenario pays out an amount between 0 and the extractable budget
    (plus 1 for rounding), and the salary taxes it reports lie between 0
    and the gross salary paid. *)
Theorem combination_payout_bounds (profit : Q) (zone : string)
    (salaryRatio : Q) (options : Options) :
  TaxRates.validZone zone ->
  0 <= salaryRatio -> salaryRatio <= 100 ->
  0 <= extractable profit options ->
  orDefault (includePension options) false = false
  \/ 0 <= orDefault (pensionRate options) (2 # 100) ->
  exists c,
    Combination.calculateCombinationScenario profit zone salaryRatio options
    = Ok c
    /\ (0 <= netPrivatePayout (Combination.results c))%Z
    /\ inject_Z (netPrivatePayout (Combination.results c))
       <= extractable profit options + 1
    /\ (0 <= Combination.totalSalaryTax c
        <= Combination.grossSalaryPaid c)%Z.
Proof.
  intros Hz H0 H100 Hx Hp.
  unfold Combination.calculateCombinationScenario. cbv zeta.
  rewrite (proj2 (ratio_guard_false salaryRatio) (conj H0 H100)).
  fold (extractable profit options).
  set (avail := extractable profit options) in *.
  set (sp := avail * (salaryRatio / 100)).
  assert (0 <= sp /\ sp <= avail) as [Hsp0 Hsp1].
  { unfold sp. assert (salaryRatio / 100 == salaryRatio * (1 # 100)) as ->
      by (unfold Qdiv; reflexivity).
    split; nra. }
  destruct (calculateMaxGrossSalary_returns sp zone
              (orDefault (includePension options) false)
              (orDefault (pensionRate options) (2 # 100)) Hz) as [sc Hsc].
  rewrite Hsc. cbn [bind].
  destruct (maxGrossSalary_gross_bounds sp zone _ _ sc Hsc Hsp0 Hp)
    as [HG0 HG1].
  eexists. split; [reflexivity|].
  cbn [Combination.results netPrivatePayout Combination.totalSalaryTax
       Combination.grossSalaryPaid].
  set (G := Salary.grossSalary sc) in *.
  assert (0 <= inject_Z G) as Hg
    by (rewrite Zle_Qle in HG0; exact HG0).
  destruct (combination_salaryTax_bounds (inject_Z G) Hg) as [Ht0 Ht1].
  cbv zeta in Ht0, Ht1.
  set (tax := _ + _ + _) in *.
  unfold TaxRates.CORPORATE_TAX_RATE.
  set (d := avail - sp - (avail - sp) * (22 # 100)).
  assert (0 <= d) as Hd by (unfold d; lra).
  pose proof (netDividend_nonneg d Hd) as Hnd.
  assert (Dividend.netDividend (Dividend.calculateDividendTax d 0)
          <= Math_round d)%Z as Hnd1.
  { rewrite netDividend_unfold. apply Math_round_mono.
    destruct (Math_max_spec 0 (d - 0)) as [[? ->]|[? ->]]; lra. }
  set (ND := Dividend.netDividend (Dividend.calculateDividendTax d 0)) in *.
  rewrite Zle_Qle in Hnd. change (inject_Z 0) with 0 in Hnd.
  rewrite Zle_Qle in HG1, Hnd1.
  pose proof (Math_round_upper sp). pose proof (Math_round_upper d).
  split; [|split; [|split]].
  - apply Math_round_nonneg. lra.
  - assert (Math_round (inject_Z G - tax + inject_Z ND) <= G + ND)%Z as Hle.
    { rewrite <- (Math_round_inject_Z (G + ND)). apply Math_round_mono.
      rewrite inject_Z_plus. lra. }
    rewrite Zle_Qle, inject_Z_plus in Hle. unfold d in *. lra.
  - apply Math_round_nonneg. exact Ht0.
  - apply Z.le_trans with (Math_round (inject_Z G)).
    + apply Math_round_mono. lra.
    + rewrite Math_round_inject_Z. apply Z.le_refl.
Qed.

Lemma combination_payout_bounds_witness :
  exists c,
    Combination.calculateCombinationScenario 1000000 "1" 40 pensionOn = Ok c
    /\ (0 <= netPrivatePayout (Combination.results c))%Z.
Proof.
  assert (TaxRates.validZone "1") as Hz by (vm_compute; discriminate).
  assert (0 <= 40) as H0 by (unfold Qle; simpl; lia).
  assert (40 <= 100) as H100 by (unfold Qle; simpl; lia).
  assert (0 <= extractable 1000000 pensionOn) as Hx
    by (vm_compute; discriminate).
  assert (orDefault (includePension pensionOn) false = false
          \/ 0 <= orDefault (pensionRate pensionOn) (2 # 100)) as Hp
    by (right; vm_compute; discriminate).
  destruct (combination_payout_bounds 1000000 "1" 40 pensionOn
              Hz H0 H100 Hx Hp) as [c [Hc [Hn _]]].
  exists c. split; [exact Hc | exact Hn].
Defined.

(** ** More on the search for the optimal ratio *)

Section SearchTrace.
Variables (profit : Q) (zone : string) (explicit : Options).
Hypothesis zone_valid : TaxRates.validZone zone.

Lemma trace_visit (k : Z) (st : Optimizer.SearchState) :
  (0 <= k <= 100)%Z ->
  TraceInvariant profit zone explicit k st ->
  TraceInvariant profit zone explicit (k + 1)
    (Optimizer.visit profit zone explicit k st).
Proof.
  intros Hk [Hr Hall].
  destruct (combination_returns profit zone (inject_Z k) explicit zone_valid)
    as [sk Ek].
  { change (inject_Z 0 <= inject_Z k). rewrite <- Zle_Qle. lia. }
  { change (inject_Z k <= inject_Z 100). rewrite <- Zle_Qle. lia. }
  unfold Optimizer.visit. rewrite Ek.
  assert (TraceInvariant profit zone explicit (k + 1)
            {| Optimizer.optimalRatio := 0; Optimizer.optimalNetPayout := 0;
               Optimizer.optimalTax := None;
               Optimizer.searchResults :=
                 Optimizer.searchResults st ++
                 [ {| Optimizer.entryRatio := k;
                      Optimizer.entryNetPayout :=
                        netPrivatePayout (Combination.results sk);
                      Optimizer.entryTotalTax :=
                        totalTaxPaid (Combination.results sk);
                      Optimizer.entryEffectiveRate :=
                        effectiveTaxRate (Combination.results sk) |} ] |})
    as [Hr' Hall'].
  { split; cbn [Optimizer.searchResults].
    - rewrite map_app, Hr.
      replace (Z.to_nat (k + 1)) with (S (Z.to_nat k)) by lia.
      rewrite seq_S, map_app. cbn [map Optimizer.entryRatio Nat.add].
      now rewrite Z2Nat.id by lia.
    - apply Forall_app. split; [exact Hall|].
      constructor; [|constructor].
      exists sk. cbn. auto. }
  cbn [Optimizer.searchResults] in Hr', Hall'.
  destruct (_ >? _)%Z; split; exact Hr' || exact Hall'.
Qed.

Lemma searchLoop_trace (fuel : nat) :
  forall (k : Z) (st st' : Optimizer.SearchState),
    (0 <= k <= 101)%Z ->
    Optimizer.searchLoop profit zone explicit 1 fuel k st = Some st' ->
    TraceInvariant profit zone explicit k st ->
    TraceInvariant profit zone explicit 101 st'.
Proof.
  induction fuel as [|fuel IH]; intros k st st' Hk Hloop Hinv;
    cbn [Optimizer.searchLoop] in Hloop;
    destruct (k <=? 100)%Z eqn:Hle.
  - discriminate Hloop.
  - apply Z.leb_gt in Hle. assert (k = 101)%Z as -> by lia.
    injection Hloop as <-. exact Hinv.
  - apply Z.leb_le in Hle.
    apply (IH (k + 1)%Z (Optimizer.visit profit zone explicit k st) st');
      [lia | exact Hloop |].
    apply trace_visit; [lia | exact Hinv].
  - apply Z.leb_gt in Hle. assert (k = 101)%Z as -> by lia.
    injection Hloop as <-. exact Hinv.
Qed.

End SearchTrace.

(** What a finished call of [findOptimalRatio] returns besides the
    scenarios: the search results, the [optimal] entry and the savings. *)
Lemma findOptimalRatio_unfolds (fuel : nat) (profit : Q) (zone : string)
    (options : Options) :
  TaxRates.validZone zone -> defaultStep options -> (101 <= fuel)%nat ->
  exists st s100 s0 s50 res,
    Optimizer.findOptimalRatio fuel profit zone options = Some (Ok res)
    /\ Optimizer.searchLoop profit zone (Optimizer.explicitOptions options)
         1 fuel 0 Optimizer.initialState = Some st
    /\ SearchInvariant profit zone (Optimizer.explicitOptions options) 101 st
    /\ Combination.calculateCombinationScenario profit zone 100
         (Optimizer.explicitOptions options) = Ok s100
    /\ Combination.calculateCombinationScenario profit zone 0
         (Optimizer.explicitOptions options) = Ok s0
    /\ Combination.calculateCombinationScenario profit zone 50
         (Optimizer.explicitOptions options) = Ok s50
    /\ Optimizer.trace res = Optimizer.searchResults st
    /\ Optimizer.optNetPayout (Optimizer.comparisonOptimal res)
       = Optimizer.optimalNetPayout st
    /\ Optimizer.vsAllSalary res
       = (Optimizer.optimalNetPayout st
          - netPrivatePayout (Combination.results s100))%Z
    /\ Optimizer.vsAllDividend res
       = (Optimizer.optimalNetPayout st
          - netPrivatePayout (Combination.results s0))%Z
    /\ Optimizer.vsSplit5050 res
       = (Optimizer.optimalNetPayout st
          - netPrivatePayout (Combination.results s50))%Z.
Proof.
  intros Hz Hstep Hfuel.
  destruct (searchLoop_finishes profit zone
              (Optimizer.explicitOptions options) fuel 0
              Optimizer.initialState) as [st [Eloop Hinv]];
    [lia | lia | apply invariant_initial |].
  assert (0 <= Optimizer.optimalRatio st <= 100)%Z as Hr.
  { destruct Hinv as [_ [(_ & -> & _)|(H & _)]]; lia. }
  destruct (payoutAt_defined profit zone options _ Hz Hr) as [sOpt [EOpt _]].
  destruct (combination_returns profit zone 100 options Hz) as [s100 E100];
    [lra | lra |].
  destruct (combination_returns profit zone 0 options Hz) as [s0 E0];
    [lra | lra |].
  destruct (combination_returns profit zone 50 options Hz) as [s50 E50];
    [lra | lra |].
  exists st, s100, s0, s50.
  unfold Optimizer.findOptimalRatio. cbv zeta.
  unfold defaultStep in Hstep. rewrite Hstep, Eloop, EOpt, E100, E0, E50.
  cbn [bind]. eexists. split; [reflexivity|].
  cbn [Optimizer.trace Optimizer.comparisonOptimal Optimizer.optNetPayout
       Optimizer.vsAllSalary Optimizer.vsAllDividend Optimizer.vsSplit5050].
  rewrite !combination_explicitOptions.
  repeat (split; [first [assumption | reflexivity]|]). reflexivity.
Qed.

(** X13: for every profit (negative ones included), valid zone, the
    default search step and pension off or at a rate that is not negative,
    the three savings that [findOptimalRatio] reports and the net payout
    of its [comparison.optimal] entry are never negative. *)
Theorem findOptimalRatio_savings_nonneg (fuel : nat) (profit : Q)
    (zone : string) (options : Options) :
  TaxRates.validZone zone -> defaultStep options -> (101 <= fuel)%nat ->
  orDefault (includePension options) false = false
  \/ 0 <= orDefault (pensionRate options) (2 # 100) ->
  exists res,
    Optimizer.findOptimalRatio fuel profit zone options = Some (Ok res)
    /\ (0 <= Optimizer.vsAllSalary res)%Z
    /\ (0 <= Optimizer.vsAllDividend res)%Z
    /\ (0 <= Optimizer.vsSplit5050 res)%Z
    /\ (0 <= Optimizer.optNetPayout (Optimizer.comparisonOptimal res))%Z.
Proof.
  intros Hz Hstep Hfuel _.
  destruct (findOptimalRatio_unfolds fuel profit zone options Hz Hstep Hfuel)
    as (st & s100 & s0 & s50 & res & Eres & _ & [Hmax Hbest] & E100 & E0
        & E50 & _ & Hopt & H100 & H0 & H50).
  exists res. split; [exact Eres|].
  rewrite H100, H0, H50, Hopt.
  pose proof (Hmax 100%Z s100 ltac:(lia) E100).
  pose proof (Hmax 0%Z s0 ltac:(lia) E0).
  pose proof (Hmax 50%Z s50 ltac:(lia) E50).
  assert (0 <= Optimizer.optimalNetPayout st)%Z
    by (destruct Hbest as [(_ & _ & ->)|(_ & H' & _)]; lia).
  repeat split; lia.
Qed.

Lemma findOptimalRatio_savings_nonneg_witness :
  exists res,
    Optimizer.findOptimalRatio 101 (-100000) "1" pensionMax = Some (Ok res)
    /\ (0 <= Optimizer.vsAllSalary res)%Z.
Proof.
  assert (TaxRates.validZone "1") as Hz by (vm_compute; discriminate).
  assert (defaultStep pensionMax) as Hs by reflexivity.
  assert (orDefault (includePension pensionMax) false = false
          \/ 0 <= orDefault (pensionRate pensionMax) (2 # 100)) as Hp
    by (right; vm_compute; discriminate).
  destruct (findOptimalRatio_savings_nonneg 101 (-100000) "1" pensionMax
              Hz Hs (le_n 101) Hp) as [res [Eres [H _]]].
  exists res. split; [exact Eres | exact H].
Defined.

(** X14: for a valid zone and the default search step the search results
    returned by [findOptimalRatio] hold exactly one entry per ratio
    0, 1, ..., 100, in this order, and every entry carries the net payout,
    total tax and effective rate of the combination scenario at its
    ratio. *)
Theorem findOptimalRatio_trace_complete (fuel : nat) (profit : Q)
    (zone : string) (options : Options) :
  TaxRates.validZone zone -> defaultStep options -> (101 <= fuel)%nat ->
  exists res,
    Optimizer.findOptimalRatio fuel profit zone options = Some (Ok res)
    /\ map Optimizer.entryRatio (Optimizer.trace res) = evaluatedRatios
    /\ Forall (IsEntryOf profit zone options) (Optimizer.trace res).
Proof.
  intros Hz Hstep Hfuel.
  destruct (findOptimalRatio_unfolds fuel profit zone options Hz Hstep Hfuel)
    as (st & _ & _ & _ & res & Eres & Eloop & _ & _ & _ & _ & Etrace & _).
  exists res. split; [exact Eres|]. rewrite Etrace.
  destruct (searchLoop_trace profit zone (Optimizer.explicitOptions options)
              Hz fuel 0 Optimizer.initialState st ltac:(lia) Eloop)
    as [Hr Hall].
  { split; [reflexivity | constructor]. }
  split; [exact Hr|].
  apply Forall_impl with (2 := Hall).
  intros e (s & Es & Hrest). exists s.
  rewrite combination_explicitOptions in Es. auto.
Qed.

Lemma findOptimalRatio_trace_complete_witness :
  exists res,
    Optimizer.findOptimalRatio 101 1000000 "1" noOptions = Some (Ok res)
    /\ map Optimizer.entryRatio (Optimizer.trace res) = evaluatedRatios.
Proof.
  assert (TaxRates.validZone "1") as Hz by (vm_compute; discriminate).
  assert (defaultStep noOptions) as Hs by reflexivity.
  destruct (findOptimalRatio_trace_complete 101 1000000 "1" noOptions
              Hz Hs (le_n 101)) as [res [Eres [H _]]].
  exists res. split; [exact Eres | exact H].
Defined.

Section SearchStep.
Variables (profit : Q) (zone : string) (explicit : Options) (step : Z).

Lemma searchLoop_positive_step (fuel : nat) :
  forall (k : Z) (st : Optimizer.SearchState),
    (0 < step)%Z -> (101 - k <= Z.of_nat fuel)%Z ->
    exists st',
      Optimizer.searchLoop profit zone explicit step fuel k st = Some st'.
Proof.
  induction fuel as [|fuel IH]; intros k st Hs Hk;
    cbn [Optimizer.searchLoop]; destruct (k <=? 100)%Z eqn:Hle;
    try (eexists; reflexivity).
  - apply Z.leb_le in Hle. lia.
  - apply Z.leb_le in Hle. apply IH; lia.
Qed.

Lemma searchLoop_nonpositive_step (fuel : nat) :
  forall (k : Z) (st : Optimizer.SearchState),
    (step <= 0)%Z -> (k <= 100)%Z ->
    Optimizer.searchLoop profit zone explicit step fuel k st = None.
Proof.
  induction fuel as [|fuel IH]; intros k st Hs Hk;
    cbn [Optimizer.searchLoop];
    apply Z.leb_le in Hk as Hle; rewrite Hle; [reflexivity|].
  apply IH; lia.
Qed.

Lemma searchLoop_invalid_zone (fuel : nat) :
  forall (k : Z) (st st' : Optimizer.SearchState),
    ~ TaxRates.validZone zone ->
    Optimizer.searchLoop profit zone explicit step fuel k st = Some st' ->
    st' = st.
Proof.
  induction fuel as [|fuel IH]; intros k st st' Hz Hloop;
    cbn [Optimizer.searchLoop] in Hloop; destruct (k <=? 100)%Z.
  - discriminate Hloop.
  - now injection Hloop.
  - apply IH in Hloop; [|exact Hz]. rewrite Hloop.
    unfold Optimizer.visit.
    pose proof (combination_rejects_zone profit zone (inject_Z k) explicit Hz)
      as Ht.
    destruct (Combination.calculateCombinationScenario profit zone
                (inject_Z k) explicit); [destruct Ht | reflexivity].
  - now injection Hloop.
Qed.

End SearchStep.

(** X15: the [try]/[catch] of the search does not hide an unknown zone:
    for a zone that is not in the rate table and a positive search step,
    every ratio of the search is skipped and [findOptimalRatio] then
    throws when it builds the optimal scenario. *)
Theorem findOptimalRatio_throws_on_unknown_zone (fuel : nat) (profit : Q)
    (zone : string) (options : Options) :
  ~ TaxRates.validZone zone ->
  (0 < orDefault (searchStep options) 1)%Z -> (101 <= fuel)%nat ->
  Optimizer.searchLoop profit zone (Optimizer.explicitOptions options)
    (orDefault (searchStep options) 1%Z) fuel 0 Optimizer.initialState
  = Some Optimizer.initialState
  /\ exists message,
       Optimizer.findOptimalRatio fuel profit zone options
       = Some (Throw message).
Proof.
  intros Hz Hs Hfuel.
  destruct (searchLoop_positive_step profit zone
              (Optimizer.explicitOptions options)
              (orDefault (searchStep options) 1%Z) fuel 0
              Optimizer.initialState Hs ltac:(lia)) as [st Eloop].
  pose proof (searchLoop_invalid_zone _ _ _ _ _ _ _ _ Hz Eloop) as ->.
  split; [exact Eloop|].
  unfold Optimizer.findOptimalRatio. cbv zeta. rewrite Eloop.
  cbn [Optimizer.initialState Optimizer.optimalRatio].
  pose proof (combination_rejects_zone profit zone (inject_Z 0)
                (Optimizer.explicitOptions options) Hz) as Ht.
  destruct (Combination.calculateCombinationScenario profit zone
              (inject_Z 0) (Optimizer.explicitOptions options)) as [s|msg];
    [destruct Ht|].
  exists msg. reflexivity.
Qed.

Lemma findOptimalRatio_throws_on_unknown_zone_witness :
  exists message,
    Optimizer.findOptimalRatio 101 1000000 "6" noOptions
    = Some (Throw message).
Proof.
  assert (~ TaxRates.validZone "6") as Hz
    by (intros H; apply H; reflexivity).
  assert (0 < orDefault (searchStep noOptions) 1)%Z as Hs by reflexivity.
  exact (proj2 (findOptimalRatio_throws_on_unknown_zone 101 1000000 "6"
                  noOptions Hz Hs (le_n 101))).
Defined.

(** X16: [findOptimalRatio] comes to an end exactly when the (integer)
    search step is positive: with a positive step 101 iterations suffice,
    with a step of 0 or less the loop never leaves the range 0..100 and no
    number of iterations finishes it. *)
Theorem findOptimalRatio_terminates_iff (profit : Q) (zone : string)
    (options : Options) :
  ((exists fuel,
      Optimizer.findOptimalRatio fuel profit zone options <> None)
   <-> (0 < orDefault (searchStep options) 1)%Z)
  /\ ((0 < orDefault (searchStep options) 1)%Z ->
      Optimizer.findOptimalRatio 101 profit zone options <> None)
  /\ ((orDefault (searchStep options) 1 <= 0)%Z ->
      forall fuel,
        Optimizer.findOptimalRatio fuel profit zone options = None).
Proof.
  assert ((0 < orDefault (searchStep options) 1)%Z ->
          Optimizer.findOptimalRatio 101 profit zone options <> None) as Hpos.
  { intros Hs.
    destruct (searchLoop_positive_step profit zone
                (Optimizer.explicitOptions options)
                (orDefault (searchStep options) 1%Z) 101 0
                Optimizer.initialState Hs ltac:(lia)) as [st Eloop].
    unfold Optimizer.findOptimalRatio. cbv zeta. rewrite Eloop.
    discriminate. }
  assert ((orDefault (searchStep options) 1 <= 0)%Z ->
          forall fuel,
            Optimizer.findOptimalRatio fuel profit zone options = None)
    as Hneg.
  { intros Hs fuel.
    unfold Optimizer.findOptimalRatio. cbv zeta.
    now rewrite (searchLoop_nonpositive_step profit zone
                   (Optimizer.explicitOptions options)
                   (orDefault (searchStep options) 1%Z) fuel 0
                   Optimizer.initialState Hs ltac:(lia)). }
  split; [|split; assumption].
  split.
  - intros [fuel Hf].
    destruct (Z_lt_le_dec 0 (orDefault (searchStep options) 1%Z)) as [H|H];
      [exact H|].
    exfalso. apply Hf. now apply Hneg.
  - intros Hs. exists 101%nat. now apply Hpos.
Qed.

(** ** More on input validation *)

Section ValidationInvariants.
Import Validation.
Local Set Warnings "-inexact-float".
Variable host : Host.














Lemma includes_validZones (z : string) :
  includes validZones z = true <-> TaxRates.validZone z.
Proof.
  unfold validZones, TaxRates.validZone,
    TaxRates.EMPLOYER_SOCIAL_SECURITY_RATES.
  cbn [includes TaxRates.lookup].
  rewrite (String.eqb_sym z "1"), (String.eqb_sym z "1a"),
    (String.eqb_sym z "2"), (String.eqb_sym z "3"), (String.eqb_sym z "4"),
    (String.eqb_sym z "4a"), (String.eqb_sym z "5").
  destruct (String.eqb "1" z), (String.eqb "1a" z), (String.eqb "2" z),
    (String.eqb "3" z), (String.eqb "4" z), (String.eqb "4a" z),
    (String.eqb "5" z); cbn [orb]; split; congruence.
Qed.

(** X18: validation and calculation agree on the zones: a zone that
    [validateEmployerZone] hands on is one of the rate table, so
    [calculateMaxGrossSalary] does not throw on it; and every zone of the
    rate table, given as a string, passes unchanged. *)
Theorem validated_zone_never_throws :
  (forall (v : JsVal) (z : string),
     value (validateEmployerZone host v) = Some z ->
     TaxRates.validZone z
     /\ forall (budget : Q) (ip : bool) (pr : Q),
          exists sc,
            Salary.calculateMaxGrossSalary budget z ip pr = Ok sc)
  /\ (forall z : string,
        TaxRates.validZone z ->
        validateEmployerZone host (JString z) = valid z).
Proof.
  split.
  - intros v z. unfold validateEmployerZone.
    destruct (isMissing v); [discriminate|].
    destruct (includes validZones (ToString host v)) eqn:E;
      cbn [negb value valid invalid]; [|discriminate].
    intros Hz. injection Hz as <-.
    apply includes_validZones in E. split; [exact E|].
    intros budget ip pr. now apply calculateMaxGrossSalary_returns.
  - intros z Hz. unfold validateEmployerZone.
    cbn [isMissing ToString].
    destruct (String.eqb_spec z "") as [->|_].
    + exfalso. apply Hz. reflexivity.
    + apply includes_validZones in Hz. now rewrite Hz.
Qed.







End ValidationInvariants.

(** ** Accepted numbers *)

(** Two numbers that are not NaN are comparable: when [x < y] fails,
    [y <= x] holds. *)
Lemma SFcompare_antisym (a b : SpecFloat.spec_float) :
  SpecFloat.SFcompare b a
  = match SpecFloat.SFcompare a b with
    | Some c => Some (CompOpp c)
    | None => None
    end.
Proof.
  destruct a as [sa|sa| |sa ma ea], b as [sb|sb| |sb mb eb];
    try destruct sa; try destruct sb; cbn [SpecFloat.SFcompare CompOpp];
    try reflexivity;
    rewrite (Z.compare_antisym ea eb);
    destruct (ea ?= eb)%Z; cbn [CompOpp]; try reflexivity;
    fold (Pos.compare ma mb); fold (Pos.compare mb ma);
    rewrite (Pos.compare_antisym ma mb);
    destruct (ma ?= mb)%positive; reflexivity.
Qed.

Lemma float_not_less (x y : float) :
  is_nan x = false -> is_nan y = false ->
  PrimFloat.ltb x y = false -> PrimFloat.leb y x = true.
Proof.
  unfold is_nan.
  rewrite !FloatAxioms.eqb_spec, FloatAxioms.ltb_spec, FloatAxioms.leb_spec.
  unfold SpecFloat.SFeqb, SpecFloat.SFltb, SpecFloat.SFleb.
  rewrite (SFcompare_antisym (FloatOps.Prim2SF x) (FloatOps.Prim2SF y)).
  destruct (FloatOps.Prim2SF x) as [sx|sx| |sx mx ex],
    (FloatOps.Prim2SF y) as [sy|sy| |sy my ey];
    try destruct sx; try destruct sy;
    cbn [SpecFloat.SFcompare negb CompOpp]; try discriminate;
    intros _ _; try congruence;
    destruct (ex ?= ey)%Z; cbn [CompOpp]; try congruence;
    destruct (Pos.compare_cont Eq mx my); cbn [CompOpp]; congruence.
Qed.

Section AcceptedNumbers.
Import Validation.
Local Set Warnings "-inexact-float".
Variable host : Host.

Lemma validatePercentage_range (v : JsVal) (field : string) (x : float) :
  value (validatePercentage host v field) = Some x ->
  is_nan x = false
  /\ PrimFloat.leb MIN_PERCENTAGE x = true
  /\ PrimFloat.leb x MAX_PERCENTAGE = true.
Proof.
  unfold validatePercentage.
  destruct (isMissing v); [discriminate|].
  destruct (is_nan (ToNumber host v)) eqn:Hn; [discriminate|].
  destruct (PrimFloat.ltb (ToNumber host v) MIN_PERCENTAGE) eqn:Hlo;
    [discriminate|].
  destruct (PrimFloat.ltb MAX_PERCENTAGE (ToNumber host v)) eqn:Hhi;
    [discriminate|].
  cbn [orb value valid]. intros Hx. injection Hx as <-.
  split; [exact Hn|].
  split; apply float_not_less; solve [assumption | reflexivity].
Qed.

(** X20: the numbers the validators hand on are numbers in range: an
    accepted profit is not NaN and lies in [0, 100 000 000 000]; an
    accepted percentage is not NaN and lies in [0, 100]; an accepted share
    cost basis is not NaN and not negative; an enabled retention is an
    accepted percentage divided by 100; and a combination strategy carries
    a salary ratio in [0, 100] with the dividend ratio as its
    complement. *)
Theorem accepted_numbers_in_range :
  (forall (v : JsVal) (x : float),
     value (validateProfit host v) = Some x ->
     is_nan x = false
     /\ PrimFloat.leb MIN_PROFIT x = true
     /\ PrimFloat.leb x MAX_PROFIT = true)
  /\ (forall (v : JsVal) (field : string) (x : float),
        value (validatePercentage host v field) = Some x ->
        is_nan x = false
        /\ PrimFloat.leb MIN_PERCENTAGE x = true
        /\ PrimFloat.leb x MAX_PERCENTAGE = true)
  /\ (forall (v : JsVal) (c : float),
        value (validateShareCostBasis host v) = Some (Some c) ->
        is_nan c = false /\ PrimFloat.leb 0 c = true)
  /\ (forall (v : JsVal) (r : Retention),
        value (validateRetentionSettings host v) = Some r ->
        retentionEnabled r = true ->
        exists p : float,
          retentionFraction r = (p / 100)%float
          /\ PrimFloat.leb 0 p = true /\ PrimFloat.leb p 100 = true)
  /\ (forall (v : JsVal) (s : Strategy),
        value (validateWithdrawalStrategy host v) = Some s ->
        strategyType s = "combination"%string ->
        PrimFloat.leb 0 (salaryRatio s) = true
        /\ PrimFloat.leb (salaryRatio s) 100 = true
        /\ dividendRatio s = (100 - salaryRatio s)%float).
Proof.
  split; [|split; [|split; [|split]]].
  - intros v x. unfold validateProfit.
    destruct (isMissing v); [discriminate|].
    destruct (is_nan (ToNumber host v)) eqn:Hn; [discriminate|].
    destruct (PrimFloat.ltb (ToNumber host v) MIN_PROFIT) eqn:Hlo;
      [discriminate|].
    destruct (PrimFloat.ltb MAX_PROFIT (ToNumber host v)) eqn:Hhi;
      [discriminate|].
    cbn [value valid]. intros Hx. injection Hx as <-.
    split; [exact Hn|].
    split; apply float_not_less; solve [assumption | reflexivity].
  - exact validatePercentage_range.
  - intros v c. unfold validateShareCostBasis.
    destruct (isMissing v); [discriminate|].
    destruct (is_nan (ToNumber host v)) eqn:Hn; [discriminate|].
    destruct (PrimFloat.ltb (ToNumber host v) 0) eqn:Hlo; [discriminate|].
    cbn [value valid]. intros Hx. injection Hx as <-.
    split; [exact Hn|].
    apply float_not_less; solve [assumption | reflexivity].
  - intros v r. unfold validateRetentionSettings.
    destruct (isFalsy v || isFalse (getProp v "enabled")).
    { cbn [value valid]. intros Hr. injection Hr as <-. discriminate. }
    destruct (isTrue (getProp v "enabled")); [|discriminate].
    destruct (validatePercentage host (getProp v "percentage")
                "Tilbakeholdelsesprosent") as [ok errs [p|] w] eqn:Ep;
      cbn [isValid value]; destruct ok; cbn [negb handOn value valid];
      try discriminate.
    + intros Hr _. injection Hr as <-. cbn [retentionFraction valueOrNull].
      exists p. split; [reflexivity|].
      assert (value (validatePercentage host (getProp v "percentage")
                       "Tilbakeholdelsesprosent") = Some p) as Hp
        by (rewrite Ep; reflexivity).
      apply validatePercentage_range in Hp. tauto.
    + exfalso. revert Ep. unfold validatePercentage.
      repeat match goal with
             | |- context [if ?b then _ else _] => destruct b
             end; discriminate.
  - intros v s. unfold validateWithdrawalStrategy.
    destruct (isFalsy v || negb (typeofObject v)); [discriminate|].
    destruct (getProp v "type") as [| | | |type| |]; try discriminate.
    destruct (includes ["salary"; "dividend"; "combination"]%string type);
      cbn [negb]; [|discriminate].
    destruct (String.eqb_spec type "combination") as [->|Hne].
    + destruct (validatePercentage host (getProp v "salaryRatio")
                  "Lønnsandel") as [ok errs [p|] w] eqn:Ep;
        cbn [isValid value]; destruct ok; cbn [negb handOn value valid];
        try discriminate.
      * intros Hs _. injection Hs as <-.
        cbn [salaryRatio dividendRatio valueOrNull].
        assert (value (validatePercentage host (getProp v "salaryRatio")
                         "Lønnsandel") = Some p) as Hp
          by (rewrite Ep; reflexivity).
        apply validatePercentage_range in Hp.
        split; [tauto|]. split; [tauto | reflexivity].
      * exfalso. revert Ep. unfold validatePercentage.
        repeat match goal with
               | |- context [if ?b then _ else _] => destruct b
               end; discriminate.
    + cbn [value valid]. intros Hs Ht. injection Hs as <-.
      cbn [strategyType] in Ht. contradiction.
Qed.

End AcceptedNumbers.

(** ** The comparison table and the recommendations *)

Section SortDesc.
Import Comparison.
Variable A : Type.
Variable payout : A -> Z.

Lemma insertDesc_permutation (x : A) (l : list A) :
  Permutation (insertDesc payout x l) (x :: l).
Proof.
  induction l as [|y l IH]; cbn [insertDesc]; [reflexivity|].
  destruct (payout y >? payout x)%Z; [|reflexivity].
  rewrite IH. apply perm_swap.
Qed.

Lemma sortDesc_permutation (l : list A) : Permutation (sortDesc payout l) l.
Proof.
  induction l as [|x l IH]; cbn [sortDesc fold_right]; [reflexivity|].
  fold (sortDesc payout l). rewrite insertDesc_permutation.
  now apply perm_skip.
Qed.

Lemma insertDesc_sorted (x : A) (l : list A) :
  StronglySorted (fun a b => (payout b <= payout a)%Z) l ->
  StronglySorted (fun a b => (payout b <= payout a)%Z)
    (insertDesc payout x l).
Proof.
  induction 1 as [|y l Hl IH Hy]; cbn [insertDesc].
  - constructor; constructor.
  - destruct (payout y >? payout x)%Z eqn:E.
    + apply Z.gtb_lt in E. constructor; [exact IH|].
      apply Forall_forall. intros z Hz.
      apply (Permutation_in _ (insertDesc_permutation x l)) in Hz.
      destruct Hz as [<-|Hz]; [lia|].
      rewrite Forall_forall in Hy. now apply Hy.
    + rewrite Z.gtb_ltb in E. apply Z.ltb_ge in E.
      constructor; [now constructor|].
      constructor; [exact E|].
      apply Forall_impl with (2 := Hy). intros z Hz. lia.
Qed.

Lemma sortDesc_sorted (l : list A) :
  StronglySorted (fun a b => (payout b <= payout a)%Z) (sortDesc payout l).
Proof.
  induction l as [|x l IH]; cbn [sortDesc fold_right]; [constructor|].
  now apply insertDesc_sorted.
Qed.

(** Rows of equal payout keep their order. *)
Lemma insertDesc_stable (v : Z) (x : A) (l : list A) :
  filter (fun a => (payout a =? v)%Z) (insertDesc payout x l)
  = filter (fun a => (payout a =? v)%Z) (x :: l).
Proof.
  induction l as [|y l IH]; cbn [insertDesc]; [reflexivity|].
  destruct (payout y >? payout x)%Z eqn:E; [|reflexivity].
  apply Z.gtb_lt in E.
  cbn [filter] in *. rewrite IH.
  destruct (payout x =? v)%Z eqn:Ex, (payout y =? v)%Z eqn:Ey;
    try reflexivity.
  apply Z.eqb_eq in Ex, Ey. lia.
Qed.

Lemma sortDesc_stable (v : Z) (l : list A) :
  filter (fun a => (payout a =? v)%Z) (sortDesc payout l)
  = filter (fun a => (payout a =? v)%Z) l.
Proof.
  induction l as [|x l IH]; cbn [sortDesc fold_right]; [reflexivity|].
  fold (sortDesc payout l). rewrite insertDesc_stable.
  cbn [filter]. now rewrite IH.
Qed.

(** The head of the sorted list is the first element of the input that
    attains the greatest payout. *)
Lemma sortDesc_head (l : list A) (best : A) (rest : list A) :
  sortDesc payout l = best :: rest ->
  (forall a, In a l -> (payout a <= payout best)%Z)
  /\ hd_error (filter (fun a => (payout a =? payout best)%Z) l) = Some best.
Proof.
  intros E. split.
  - intros a Ha.
    apply (Permutation_in _ (Permutation_sym (sortDesc_permutation l))) in Ha.
    rewrite E in Ha. destruct Ha as [<-|Ha]; [lia|].
    pose proof (sortDesc_sorted l) as Hs. rewrite E in Hs.
    apply StronglySorted_inv in Hs. destruct Hs as [_ Hs].
    rewrite Forall_forall in Hs. now apply Hs.
  - rewrite <- (sortDesc_stable (payout best) l), E.
    cbn [filter]. now rewrite Z.eqb_refl.
Qed.

End SortDesc.


Section ComparisonTable.
Import Comparison.

Lemma annotate_cells (best : Cells) (rows : list Cells) :
  forall index, map cells (annotate best index rows) = rows.
Proof.
  induction rows as [|row rest IH]; intros index; cbn [annotate map cells];
    [reflexivity|].
  now rewrite IH.
Qed.

Lemma annotate_rank (best : Cells) (rows : list Cells) :
  forall index,
    map rank (annotate best index rows)
    = map Z.of_nat (seq (S index) (List.length rows)).
Proof.
  induction rows as [|row rest IH]; intros index;
    cbn [annotate map rank List.length seq]; [reflexivity|].
  rewrite IH. f_equal. lia.
Qed.

Lemma annotate_difference (best : Cells) (rows : list Cells) :
  forall index,
    Forall (fun row =>
              differenceFromBest row
              = (netPayout best - netPayout (cells row))%Z
              /\ percentDifferenceFromBest row
                 = if (netPayout best >? 0)%Z
                   then inject_Z (differenceFromBest row)
                        / inject_Z (netPayout best) * 100
                   else 0)
           (annotate best index rows).
Proof.
  induction rows as [|row rest IH]; intros index; cbn [annotate];
    constructor; [|apply IH].
  cbn [differenceFromBest cells percentDifferenceFromBest]. auto.
Qed.

Lemma table_cells (scenarios : Scenarios) :
  map cells (rows (generateComparisonTable scenarios))
  = sortDesc netPayout (collectRows scenarios).
Proof.
  unfold generateComparisonTable. cbv zeta. cbn [rows].
  destruct (sortDesc netPayout (collectRows scenarios)) as [|best rest];
    [reflexivity|].
  apply annotate_cells.
Qed.

(** In a descending list the last element is the least. *)
Lemma sorted_last_least (l : list Cells) (z : Cells) :
  StronglySorted (fun a b => (netPayout b <= netPayout a)%Z) l ->
  nth_error l (List.length l - 1) = Some z ->
  Forall (fun a => (netPayout z <= netPayout a)%Z) l.
Proof.
  induction 1 as [|x l Hl IH Hx]; [constructor|].
  cbn [List.length]. replace (S (List.length l) - 1)%nat
    with (List.length l) by lia.
  destruct l as [|y l'].
  - cbn. intros E. injection E as ->. constructor; [lia | constructor].
  - cbn [List.length nth_error] in *.
    replace (S (List.length l') - 1)%nat with (List.length l') in IH by lia.
    intros E. specialize (IH E). constructor; [|exact IH].
    rewrite Forall_forall in Hx. apply Hx.
    apply nth_error_In with (n := List.length l'). exact E.
Qed.

(** X21: the rows of the comparison table are the computed scenarios,
    each once (missing and failed ones left out), arranged by falling net
    payout with scenarios of equal payout in the order of the scenario
    list; the ranks count 1, 2, ... down the table. *)
Theorem comparisonTable_sorted_stable (scenarios : Scenarios) :
  let table := generateComparisonTable scenarios in
  let shown := map cells (rows table) in
  Permutation shown (collectRows scenarios)
  /\ StronglySorted (fun a b => (netPayout b <= netPayout a)%Z) shown
  /\ (forall v : Z,
        filter (fun row => (netPayout row =? v)%Z) shown
        = filter (fun row => (netPayout row =? v)%Z)
            (collectRows scenarios))
  /\ map rank (rows table)
     = map Z.of_nat (seq 1 (List.length (rows table))).
Proof.
  cbv zeta. rewrite table_cells.
  split; [apply sortDesc_permutation|].
  split; [apply sortDesc_sorted|].
  split; [intros v; apply sortDesc_stable|].
  unfold generateComparisonTable. cbv zeta. cbn [rows].
  destruct (sortDesc netPayout (collectRows scenarios)) as [|best rest];
    [reflexivity|].
  rewrite annotate_rank. f_equal. f_equal.
  rewrite <- (length_map cells), annotate_cells. reflexivity.
Qed.

(** X22: in the comparison table the first row is the first scenario of
    the scenario list that attains the greatest net payout, and
    [bestScenario] is its name; every row's [differenceFromBest] is its
    distance to that payout, lies between 0 and [maxDifference], and its
    percentage is not negative; with no computed scenario the table is
    empty and names no best or worst scenario. *)
Theorem comparisonTable_differences (scenarios : Scenarios) :
  let table := generateComparisonTable scenarios in
  (forall first rest,
     rows table = first :: rest ->
     bestScenario table = Some (name (cells first))
     /\ differenceFromBest first = 0%Z
     /\ (forall row, In row (collectRows scenarios) ->
           (netPayout row <= netPayout (cells first))%Z)
     /\ hd_error
          (filter (fun row =>
                     (netPayout row =? netPayout (cells first))%Z)
                  (collectRows scenarios))
        = Some (cells first)
     /\ exists worst,
          maxDifference table = Some worst
          /\ Forall (fun row =>
                       differenceFromBest row
                       = (netPayout (cells first)
                          - netPayout (cells row))%Z
                       /\ (0 <= differenceFromBest row <= worst)%Z
                       /\ 0 <= percentDifferenceFromBest row)
                    (rows table))
  /\ (collectRows scenarios = [] ->
      rows table = [] /\ bestScenario table = None
      /\ worstScenario table = None /\ maxDifference table = None).
Proof.
  cbv zeta. split.
  - intros first rest Erows.
    pose proof (table_cells scenarios) as Hcells.
    pose proof (sortDesc_sorted Cells netPayout (collectRows scenarios))
      as Hsorted.
    unfold generateComparisonTable in *. cbv zeta in *.
    cbn [rows bestScenario maxDifference] in *.
    destruct (sortDesc netPayout (collectRows scenarios)) as [|best others]
      eqn:Esort; [discriminate Erows|].
    rewrite Erows in Hcells. cbn [map] in Hcells.
    injection Hcells as Hfirst Hrest. subst best.
    destruct (sortDesc_head Cells netPayout _ _ _ Esort) as [Hmax Hhd].
    pose proof (annotate_difference (cells first) (cells first :: others) 0)
      as Hdiff.
    rewrite Erows in Hdiff.
    split; [reflexivity|].
    split.
    { apply Forall_inv in Hdiff. destruct Hdiff as [-> _]. lia. }
    split; [exact Hmax|]. split; [exact Hhd|].
    rewrite Erows.
    destruct (lastRow (first :: rest)) as [last|] eqn:Elast.
    2:{ unfold lastRow in Elast. apply nth_error_None in Elast.
        cbn [List.length] in Elast. lia. }
    exists (differenceFromBest last). split; [reflexivity|].
    assert (nth_error (cells first :: others)
              (List.length (cells first :: others) - 1)
            = Some (cells last)) as Hlast.
    { unfold lastRow in Elast.
      assert (cells first :: others = map cells (first :: rest)) as ->
        by (cbn [map]; now rewrite Hrest).
      rewrite length_map, nth_error_map, Elast. reflexivity. }
    pose proof (sorted_last_least _ _ Hsorted Hlast) as Hleast.
    assert (differenceFromBest last
            = (netPayout (cells first) - netPayout (cells last))%Z)
      as Hworst.
    { rewrite Forall_forall in Hdiff.
      apply Hdiff. unfold lastRow in Elast.
      now apply nth_error_In in Elast. }
    rewrite Forall_forall in Hdiff, Hleast. apply Forall_forall.
    intros row Hrow. destruct (Hdiff row Hrow) as [Hd Hp].
    assert (In (cells row) (cells first :: others)) as Hin.
    { assert (cells first :: others = map cells (first :: rest)) as ->
        by (cbn [map]; now rewrite Hrest).
      now apply in_map. }
    assert (netPayout (cells row) <= netPayout (cells first))%Z as Hle.
    { apply Hmax.
      apply (Permutation_in _ (sortDesc_permutation Cells netPayout
                                 (collectRows scenarios))).
      now rewrite Esort. }
    specialize (Hleast _ Hin).
    split; [exact Hd|]. split; [lia|].
    rewrite Hp. destruct (netPayout (cells first) >? 0)%Z eqn:Ebest;
      [|lra].
    apply Z.gtb_lt in Ebest.
    assert (0 <= inject_Z (differenceFromBest row)
                 / inject_Z (netPayout (cells first))) as Hq.
    { apply Qdiv_nonneg.
      - change 0 with (inject_Z 0). rewrite <- Zle_Qle. lia.
      - change 0 with (inject_Z 0). rewrite <- Zlt_Qlt. lia. }
    lra.
  - intros Hnone. unfold generateComparisonTable. cbv zeta.
    rewrite Hnone. cbn. auto.
Qed.


End ComparisonTable.

(** ** Breakpoints *)






(** ** The search with a coarser step *)

Section CoarseSearch.
Variables (profit : Q) (zone : string) (explicit : Options) (step : Z).
Hypothesis step_positive : (0 < step)%Z.

Lemma step_invariant_initial :
  StepInvariant profit zone explicit step 0 Optimizer.initialState.
Proof.
  unfold StepInvariant. cbn [Optimizer.initialState
    Optimizer.optimalNetPayout Optimizer.optimalRatio].
  split; [intros j s Hj Hlt; nia|].
  split; [lia|]. split; [lia|]. exists 0%Z. lia.
Qed.

Lemma step_invariant_visit (m : Z) (st : Optimizer.SearchState) :
  (0 <= m)%Z -> (m * step <= 100)%Z ->
  StepInvariant profit zone explicit step (m * step) st ->
  StepInvariant profit zone explicit step (m * step + step)
    (Optimizer.visit profit zone explicit (m * step) st).
Proof.
  intros Hm Hle (Hmax & Hnn & Hr & Hj).
  assert (forall j, (0 <= j)%Z -> (j * step < m * step + step)%Z ->
                    (j * step < m * step)%Z \/ j = m) as Hcases.
  { intros j Hj0 Hlt.
    destruct (Z_lt_le_dec j m) as [H|H]; [left; nia|].
    right. nia. }
  unfold Optimizer.visit.
  destruct (Combination.calculateCombinationScenario profit zone
              (inject_Z (m * step)) explicit) as [sk|msg] eqn:Ek.
  - destruct (netPrivatePayout (Combination.results sk)
              >? Optimizer.optimalNetPayout st)%Z eqn:Hgt.
    + apply Z.gtb_lt in Hgt.
      unfold StepInvariant.
      cbn [Optimizer.optimalNetPayout Optimizer.optimalRatio].
      split.
      { intros j s Hj0 Hlt Es.
        destruct (Hcases j Hj0 Hlt) as [Hbelow| ->].
        - specialize (Hmax j s Hj0 Hbelow Es). lia.
        - rewrite Ek in Es. apply Ok_injective in Es. subst s. lia. }
      split; [lia|]. split; [nia|]. exists m. lia.
    + rewrite Z.gtb_ltb in Hgt. apply Z.ltb_ge in Hgt.
      unfold StepInvariant.
      cbn [Optimizer.optimalNetPayout Optimizer.optimalRatio].
      split.
      { intros j s Hj0 Hlt Es.
        destruct (Hcases j Hj0 Hlt) as [Hbelow| ->].
        - exact (Hmax j s Hj0 Hbelow Es).
        - rewrite Ek in Es. apply Ok_injective in Es. subst s. exact Hgt. }
      auto.
  - split; [|auto].
    intros j s Hj0 Hlt Es.
    destruct (Hcases j Hj0 Hlt) as [Hbelow| ->].
    + exact (Hmax j s Hj0 Hbelow Es).
    + rewrite Ek in Es. discriminate Es.
Qed.

Lemma searchLoop_coarse (fuel : nat) :
  forall (m : Z) (st : Optimizer.SearchState),
    (0 <= m)%Z -> (101 - m <= Z.of_nat fuel)%Z ->
    StepInvariant profit zone explicit step (m * step) st ->
    exists st' k,
      Optimizer.searchLoop profit zone explicit step fuel (m * step) st
      = Some st'
      /\ (100 < k)%Z
      /\ StepInvariant profit zone explicit step k st'.
Proof.
  induction fuel as [|fuel IH]; intros m st Hm Hfuel Hinv;
    cbn [Optimizer.searchLoop];
    destruct (m * step <=? 100)%Z eqn:Hle.
  - apply Z.leb_le in Hle. nia.
  - apply Z.leb_gt in Hle. exists st, (m * step)%Z. auto.
  - apply Z.leb_le in Hle.
    replace (m * step + step)%Z with ((m + 1) * step)%Z by lia.
    apply IH; [lia | lia |].
    replace ((m + 1) * step)%Z with (m * step + step)%Z by lia.
    now apply step_invariant_visit.
  - apply Z.leb_gt in Hle. exists st, (m * step)%Z. auto.
Qed.

End CoarseSearch.

(** X25: with any positive search step, a valid zone and pension off or
    at a rate that is not negative [findOptimalRatio] returns; the ratio
    it returns is a multiple of the step within 0..100, and the net payout
    of its [comparison.optimal] entry is at least the payout of the
    combination scenario at every multiple of the step within 0..100.
    Ratios between the multiples are not examined. *)
Theorem findOptimalRatio_on_step_grid (fuel : nat) (profit : Q)
    (zone : string) (options : Options) :
  TaxRates.validZone zone ->
  (0 < orDefault (searchStep options) 1%Z)%Z -> (101 <= fuel)%nat ->
  orDefault (includePension options) false = false
  \/ 0 <= orDefault (pensionRate options) (2 # 100) ->
  exists res,
    Optimizer.findOptimalRatio fuel profit zone options = Some (Ok res)
    /\ (0 <= Optimizer.resultRatio res <= 100)%Z
    /\ (exists j, (0 <= j)%Z
                  /\ Optimizer.resultRatio res
                     = (j * orDefault (searchStep options) 1%Z)%Z)
    /\ forall j s,
         (0 <= j)%Z -> (j * orDefault (searchStep options) 1%Z <= 100)%Z ->
         Combination.calculateCombinationScenario profit zone
           (inject_Z (j * orDefault (searchStep options) 1%Z)) options = Ok s ->
         (netPrivatePayout (Combination.results s)
          <= Optimizer.optNetPayout (Optimizer.comparisonOptimal res))%Z.
Proof.
  intros Hz Hstep Hfuel _.
  set (step := orDefault (searchStep options) 1%Z) in *.
  destruct (searchLoop_coarse profit zone (Optimizer.explicitOptions options)
              step Hstep fuel 0 Optimizer.initialState)
    as (st & k & Eloop & Hk & Hmax & Hnn & Hr & Hj);
    [lia | lia | apply step_invariant_initial; exact Hstep |].
  change (0 * step)%Z with 0%Z in Eloop.
  destruct (payoutAt_defined profit zone options _ Hz Hr) as [sOpt [EOpt _]].
  destruct (combination_returns profit zone 100 options Hz) as [s100 E100];
    [lra | lra |].
  destruct (combination_returns profit zone 0 options Hz) as [s0 E0];
    [lra | lra |].
  destruct (combination_returns profit zone 50 options Hz) as [s50 E50];
    [lra | lra |].
  unfold Optimizer.findOptimalRatio. cbv zeta. fold step.
  rewrite Eloop, EOpt, E100, E0, E50. cbn [bind].
  eexists. split; [reflexivity|].
  cbn [Optimizer.resultRatio Optimizer.comparisonOptimal
       Optimizer.optNetPayout].
  split; [exact Hr|]. split; [exact Hj|].
  intros j s Hj0 Hle Es.
  rewrite <- combination_explicitOptions in Es.
  apply (Hmax j s Hj0); [lia | exact Es].
Qed.

Lemma findOptimalRatio_on_step_grid_witness :
  exists res,
    Optimizer.findOptimalRatio 101 1000000 "1" coarseSearch = Some (Ok res)
    /\ (0 <= Optimizer.resultRatio res <= 100)%Z.
Proof.
  assert (TaxRates.validZone "1") as Hz by (vm_compute; discriminate).
  assert (0 < orDefault (searchStep coarseSearch) 1%Z)%Z as Hs
    by reflexivity.
  destruct (findOptimalRatio_on_step_grid 101 1000000 "1" coarseSearch
              Hz Hs (le_n 101) (or_introl eq_refl)) as [res [Eres [Hr _]]].
  exists res. split; [exact Eres | exact Hr].
Defined.

(** ** Corporate tax and the shielding allowance *)


